(** * MDGSF/utils: the leveled logger (package log) and the MD5 helper
      (package uhash), embedded from the Go sources.

    - Go's [int] is the 64-bit signed integer: a [Z] together with a proof
      that it lies in the machine range ([int]); arithmetic that can leave
      the range wraps ([int_of]).
    - A Go [string] is a [string]; a [[]byte] is a [list ascii] ([bytes]).
      [ascii] is the 8-bit byte.
    - A method on [*Logger] is a computation in the monad [M]: it threads the
      Logger the receiver points to and the world outside the package, and
      ends by returning, by panicking or by exiting the process.
    - The mutex [mu] is not modelled: every method runs alone. *)

From Stdlib Require Import ZArith List String Ascii Bool Lia Eqdep_dec.
Import ListNotations.
Local Open Scope string_scope.
Local Open Scope list_scope.
Local Open Scope Z_scope.

(* ===================================================================== *)
(** ** Machine integers *)
(* ===================================================================== *)

Module GoInt.

Definition int_min : Z := - 2 ^ 63.
Definition int_max : Z := 2 ^ 63 - 1.

Definition is_int (z : Z) : bool := (int_min <=? z) && (z <=? int_max).

(** A value of Go's type [int]. *)
Record int : Type := mkint { intval :> Z; int_range : is_int intval = true }.

(** Two's complement wrap-around of an unbounded result. *)
Definition wrap (z : Z) : Z := (z + 2 ^ 63) mod 2 ^ 64 - 2 ^ 63.

(** [int(z)] for an unbounded [z]: the value the machine keeps.  The second
    branch is never taken ([wrap] lands in the range, lemma [wrap_is_int]). *)
Definition int_of (z : Z) : int :=
  match is_int (wrap z) as b return is_int (wrap z) = b -> int with
  | true => fun H => mkint (wrap z) H
  | false => fun _ => mkint 0 eq_refl
  end eq_refl.

End GoInt.
Export GoInt.

(* ===================================================================== *)
(** ** Bytes and strings *)
(* ===================================================================== *)

Abbreviation byte := ascii (only parsing).
Abbreviation bytes := (list ascii) (only parsing).

(** [[]byte(s)], and the [s...] of [append(buf, s...)]. *)
Definition bytes_of (s : string) : bytes := list_ascii_of_string s.

(** The conversion [byte(n)] of an integer: its low eight bits. *)
Definition byte_of_Z (z : Z) : byte := ascii_of_N (Z.to_N (z mod 256)).

Definition nl : byte := "010"%char.
Definition slash : byte := "/"%char.
Definition esc : byte := "027"%char.

(** [len(s)]. *)
Definition len (s : string) : Z := Z.of_nat (String.length s).

(** [s[i]] for an index in range; [None] where Go panics. *)
Definition index (s : string) (i : Z) : option byte :=
  if (0 <=? i) && (i <? len s) then String.get (Z.to_nat i) s else None.

(** [s[:j]] and [s[i:]]. *)
Definition slice_to (s : string) (j : Z) : string := String.substring 0 (Z.to_nat j) s.
Definition slice_from (s : string) (i : Z) : string :=
  String.substring (Z.to_nat i) (String.length s - Z.to_nat i) s.

(** [strings.Repeat(" ", n)] for [n >= 0]. *)
Definition spaces (n : Z) : bytes := repeat " "%char (Z.to_nat n).

(* ===================================================================== *)
(** ** logconst.go *)
(* ===================================================================== *)

Definition MaxContextLen : Z := 66.

(** Modelled from the spec: the declaration of the type [Level] is not in
    the sources.  Section 4.1 describes it as an ordered enumeration whose
    members carry a numeric rank; logconst.go numbers them with [iota].  A
    level is its rank. *)
Definition Level : Type := Z.

Definition PanicLevel : Level := 0.
Definition FatalLevel : Level := 1.
Definition ErrorLevel : Level := 2.
Definition WarnLevel : Level := 3.
Definition InfoLevel : Level := 4.
Definition DebugLevel : Level := 5.
Definition VerboseLevel : Level := 6.

Definition Ldate : Z := Z.shiftl 1 0.
Definition Ltime : Z := Z.shiftl 1 1.
Definition Lmicroseconds : Z := Z.shiftl 1 2.
Definition Llongfile : Z := Z.shiftl 1 3.
Definition Lshortfile : Z := Z.shiftl 1 4.
Definition LUTC : Z := Z.shiftl 1 5.
Definition LstdFlags : Z := Z.lor Ldate Ltime.

Definition IsTerminal : Z := 0.
Definition NotTerminal : Z := 1.

(** [x & m != 0]. *)
Definition has (x m : Z) : bool := negb (Z.land x m =? 0).

(* ===================================================================== *)
(** ** itoa *)
(* ===================================================================== *)

(** The loop of [itoa].  [slots] is [bp + 1], the number of cells of
    [b [20]byte] not yet written; [acc] is [b[bp+1:]].  Writing [b[bp]]
    with no cell left is an index out of range: [None].  [wid--] is
    machine arithmetic: below the smallest integer it wraps around. *)
Fixpoint itoa_loop (slots : nat) (i wid : Z) (acc : bytes) : option bytes :=
  match slots with
  | O => None
  | S slots' =>
      if (10 <=? i) || (1 <? wid) then
        let q := Z.quot i 10 in
        itoa_loop slots' q (wrap (wid - 1)) (byte_of_Z (48 + i - q * 10) :: acc)
      else Some (byte_of_Z (48 + i) :: acc)
  end.

(** [itoa(buf, i, wid)]: the new contents of [*buf]. *)
Definition itoa (buf : bytes) (i wid : Z) : option bytes :=
  match itoa_loop 20 i wid [] with
  | Some digits => Some (buf ++ digits)
  | None => None
  end.

(* ===================================================================== *)
(** ** What the package imports *)
(* ===================================================================== *)

(** [time.Time], as far as the logger reads it: the calendar reading of the
    instant in the value's own location and the reading of the same instant
    in UTC. *)
Record Civil : Type := mkCivil {
  year : int; month : int; day : int;
  hour : int; minute : int; second : int; nanosecond : int }.

Record Time : Type := mkTime { wall : Civil; wall_utc : Civil }.

Definition Time_UTC (t : Time) : Time := mkTime (wall_utc t) (wall_utc t).
Definition Time_Date (t : Time) : int * int * int :=
  (year (wall t), month (wall t), day (wall t)).
Definition Time_Clock (t : Time) : int * int * int :=
  (hour (wall t), minute (wall t), second (wall t)).
Definition Time_Nanosecond (t : Time) : int := nanosecond (wall t).

(** Go's [error]; [None] is [nil]. *)
Definition error : Type := string.

(** The world outside the package and the functions of the Go runtime and
    library that read or change it.  [runtime_Caller] gives [None] for
    [ok == false].  [Value] is [interface{}]. *)
Class GoRuntime : Type := {
  World : Type;
  time_Now : World -> Time * World;
  runtime_Caller : int -> World -> option (string * int) * World;
  Value : Type;
  box_int : Z -> Value;
  box_string : string -> Value;
  fmt_Sprint : list Value -> string;
  fmt_Sprintf : string -> list Value -> string;
  fmt_Sprintln : list Value -> string
}.

(** Declarations of package log that are not in the sources at hand: the
    flag bit [LLevel] and the methods [String] and [Color] of [Level]. *)
Class LevelDecls : Type := {
  LLevel : Z;
  Level_String : Level -> string;
  Level_Color : Level -> Z
}.

(** How a method ends. *)
Inductive PanicValue : Type :=
| PanicString (s : string)   (* panic(s) *)
| IndexOutOfRange.           (* run-time panic of an index expression *)

Inductive Outcome (A : Type) : Type :=
| Returned (a : A)
| Panicked (v : PanicValue)
| Exited (status : Z).

Arguments Returned {A} a.
Arguments Panicked {A} v.
Arguments Exited {A} status.

Section Log.

Context {rt : GoRuntime} {ld : LevelDecls}.

(** An [io.Writer]: its method [Write(p) (n, err)]. *)
Definition Writer : Type := bytes -> World -> (int * option error) * World.

(* ===================================================================== *)
(** ** The Logger *)
(* ===================================================================== *)

Record Logger : Type := mkLogger {
  contentPrefix : string;
  prefix : string;
  suffix : string;
  flag : int;
  buf : bytes;
  level : Level;
  out : Writer;
  isTerminal : int;
  callDepth : int
}.

Definition New (out : Writer) (prefix suffix : string) (flag : int)
    (level : Level) (isTerminal : int) : Logger :=
  {| contentPrefix := ""; prefix := prefix; suffix := suffix; flag := flag;
     buf := []; level := level; out := out; isTerminal := isTerminal;
     callDepth := int_of 2 |}.

(** Assignments to one field of [*l]. *)
Definition with_contentPrefix (v : string) (l : Logger) : Logger :=
  mkLogger v (prefix l) (suffix l) (flag l) (buf l) (level l) (out l) (isTerminal l) (callDepth l).
Definition with_prefix (v : string) (l : Logger) : Logger :=
  mkLogger (contentPrefix l) v (suffix l) (flag l) (buf l) (level l) (out l) (isTerminal l) (callDepth l).
Definition with_suffix (v : string) (l : Logger) : Logger :=
  mkLogger (contentPrefix l) (prefix l) v (flag l) (buf l) (level l) (out l) (isTerminal l) (callDepth l).
Definition with_flag (v : int) (l : Logger) : Logger :=
  mkLogger (contentPrefix l) (prefix l) (suffix l) v (buf l) (level l) (out l) (isTerminal l) (callDepth l).
Definition with_buf (v : bytes) (l : Logger) : Logger :=
  mkLogger (contentPrefix l) (prefix l) (suffix l) (flag l) v (level l) (out l) (isTerminal l) (callDepth l).
Definition with_level (v : Level) (l : Logger) : Logger :=
  mkLogger (contentPrefix l) (prefix l) (suffix l) (flag l) (buf l) v (out l) (isTerminal l) (callDepth l).
Definition with_out (v : Writer) (l : Logger) : Logger :=
  mkLogger (contentPrefix l) (prefix l) (suffix l) (flag l) (buf l) (level l) v (isTerminal l) (callDepth l).
Definition with_isTerminal (v : int) (l : Logger) : Logger :=
  mkLogger (contentPrefix l) (prefix l) (suffix l) (flag l) (buf l) (level l) (out l) v (callDepth l).
Definition with_callDepth (v : int) (l : Logger) : Logger :=
  mkLogger (contentPrefix l) (prefix l) (suffix l) (flag l) (buf l) (level l) (out l) (isTerminal l) v.

(* ===================================================================== *)
(** ** The monad of methods *)
(* ===================================================================== *)

(** The calls a method makes out of the package, in order. *)
Inductive Event : Type :=
| EvNow                      (* time.Now() *)
| EvCaller (skip : int)      (* runtime.Caller(skip) *)
| EvFormat (s : string)      (* fmt.Sprint, Sprintf or Sprintln on the message; s is the result *)
| EvWrite (p : bytes).       (* out.Write(p) *)

Record State : Type := mkState {
  logger : Logger;           (* the Logger the receiver points to *)
  world : World;
  trace : list Event         (* oldest first *)
}.

Definition M (A : Type) : Type := State -> Outcome A * State.

Definition ret {A} (a : A) : M A := fun st => (Returned a, st).

Definition bind {A B} (m : M A) (k : A -> M B) : M B :=
  fun st =>
    match m st with
    | (Returned a, st') => k a st'
    | (Panicked v, st') => (Panicked v, st')
    | (Exited c, st') => (Exited c, st')
    end.

Definition panic {A} (v : PanicValue) : M A := fun st => (Panicked v, st).
Definition os_Exit {A} (status : Z) : M A := fun st => (Exited status, st).

Definition get_logger : M Logger := fun st => (Returned (logger st), st).
Definition update_logger (f : Logger -> Logger) : M unit :=
  fun st => (Returned tt, mkState (f (logger st)) (world st) (trace st)).

Definition emit (e : Event) (st : State) : State :=
  mkState (logger st) (world st) (trace st ++ [e]).

Definition now : M Time :=
  fun st => let '(t, w) := time_Now (world st) in
            (Returned t, emit EvNow (mkState (logger st) w (trace st))).

Definition caller (skip : int) : M (option (string * int)) :=
  fun st => let '(r, w) := runtime_Caller skip (world st) in
            (Returned r, emit (EvCaller skip) (mkState (logger st) w (trace st))).

Definition formatted (s : string) : M string :=
  fun st => (Returned s, emit (EvFormat s) st).

Definition Sprint (v : list Value) : M string := formatted (fmt_Sprint v).
Definition Sprintf (f : string) (v : list Value) : M string := formatted (fmt_Sprintf f v).
Definition Sprintln (v : list Value) : M string := formatted (fmt_Sprintln v).

Definition Write (p : bytes) : M (option error) :=
  fun st => let '((_, err), w) := out (logger st) p (world st) in
            (Returned err, emit (EvWrite p) (mkState (logger st) w (trace st))).

(** A run-time panic where an index expression or [itoa] leaves its array. *)
Definition checked {A} (o : option A) : M A :=
  match o with Some a => ret a | None => panic IndexOutOfRange end.

Declare Scope go_scope.
Delimit Scope go_scope with go.
Notation "x <- m ;; k" := (bind m (fun x => k))
  (at level 61, m at next level, right associativity) : go_scope.
Notation "' p <- m ;; k" := (bind m (fun x => let 'p := x in k))
  (at level 61, p pattern, m at next level, right associativity) : go_scope.
Notation "m ;; k" := (bind m (fun _ => k))
  (at level 61, right associativity) : go_scope.
Local Open Scope go_scope.

(* ===================================================================== *)
(** ** formatHeader *)
(* ===================================================================== *)

(** Sequencing of steps that can leave an array ([itoa], index
    expressions): the first [None] ends the function. *)
Definition and_then {A B} (o : option A) (k : A -> option B) : option B :=
  match o with Some a => k a | None => None end.

Notation "x <~ o ;; k" := (and_then o (fun x => k))
  (at level 61, o at next level, right associativity) : go_scope.

(** The block under [l.flag&LLevel != 0]. *)
Definition formatHeader_level (l : Logger) (level : Level) (buf : bytes) : bytes :=
  if has (flag l) LLevel then
    let levelString :=
      if isTerminal l =? IsTerminal then
        fmt_Sprintf (String esc "[%dm%s" ++ String esc "[0m")
                    [box_int (Level_Color level); box_string (Level_String level)]
      else
        fmt_Sprintf "%s" [box_string (Level_String level)] in
    let buf := buf ++ bytes_of levelString in
    buf ++ [" "%char]
  else buf.

(** The block under [l.flag&(Ldate|Ltime|Lmicroseconds) != 0]. *)
Definition formatHeader_time (l : Logger) (t : Time) (buf : bytes) : option bytes :=
  if has (flag l) (Z.lor (Z.lor Ldate Ltime) Lmicroseconds) then
    let t := if has (flag l) LUTC then Time_UTC t else t in
    buf <~ (if has (flag l) Ldate then
              let '(year, month, day) := Time_Date t in
              buf <~ itoa buf year 4 ;;
              let buf := buf ++ ["/"%char] in
              buf <~ itoa buf month 2 ;;
              let buf := buf ++ ["/"%char] in
              buf <~ itoa buf day 2 ;;
              Some (buf ++ [" "%char])
            else Some buf) ;;
    if has (flag l) (Z.lor Ltime Lmicroseconds) then
      let '(hour, min, sec) := Time_Clock t in
      buf <~ itoa buf hour 2 ;;
      let buf := buf ++ [":"%char] in
      buf <~ itoa buf min 2 ;;
      let buf := buf ++ [":"%char] in
      buf <~ itoa buf sec 2 ;;
      buf <~ (if has (flag l) Lmicroseconds then
                let buf := buf ++ ["."%char] in
                itoa buf (Z.quot (Time_Nanosecond t) 1000) 6
              else Some buf) ;;
      Some (buf ++ [" "%char])
    else Some buf
  else Some buf.

(** The loop [for i := len(file) - 1; i > 0; i--] that looks for the last
    ['/']: the value of [short] when it ends. *)
Fixpoint short_loop (file : string) (i : nat) : option string :=
  match i with
  | O => Some file
  | S i' =>
      c <~ index file (Z.of_nat i) ;;
      if Ascii.eqb c slash then Some (slice_from file (Z.of_nat i + 1))
      else short_loop file i'
  end.

(** The block under [l.flag&(Lshortfile|Llongfile) != 0]. *)
Definition formatHeader_file (l : Logger) (file : string) (line : int) (buf : bytes)
    : option bytes :=
  if has (flag l) (Z.lor Lshortfile Llongfile) then
    file <~ (if has (flag l) Lshortfile then short_loop file (Z.to_nat (len file - 1))
             else Some file) ;;
    let buf := buf ++ bytes_of file in
    let buf := buf ++ [":"%char] in
    buf <~ itoa buf line (-1) ;;
    Some (buf ++ bytes_of ": ")
  else Some buf.

(** [l.formatHeader(buf, t, file, line, level)]: the new contents of [*buf],
    or [None] for a run-time panic. *)
Definition formatHeader (l : Logger) (buf : bytes) (t : Time) (file : string)
    (line : int) (level : Level) : option bytes :=
  let buf := buf ++ bytes_of (prefix l) in
  let buf := formatHeader_level l level buf in
  buf <~ formatHeader_time l t buf ;;
  formatHeader_file l file line buf.

(* ===================================================================== *)
(** ** Output *)
(* ===================================================================== *)

(** [len(b)] and [b[i]] of a byte slice; [None] where Go panics. *)
Definition blen (b : bytes) : Z := Z.of_nat (List.length b).
Definition bindex (b : bytes) (i : Z) : option byte :=
  if (0 <=? i) && (i <? blen b) then nth_error b (Z.to_nat i) else None.

(** [l.buf = append(l.buf, p...)]. *)
Definition append (p : bytes) : M unit :=
  update_logger (fun l => with_buf (buf l ++ p) l).

Definition Output (calldepth : int) (s : string) (level : Level) : M (option error) :=
  now <- now ;;
  l <- get_logger ;;
  '(file, line) <-
     (if has (flag l) (Z.lor Lshortfile Llongfile) then
        r <- caller calldepth ;;
        match r with
        | Some (file, line) => ret (file, line)
        | None => ret ("???", int_of 0)
        end
      else ret ("", int_of 0)) ;;
  update_logger (with_buf []) ;;
  l <- get_logger ;;
  h <- checked (formatHeader l (buf l) now file line level) ;;
  update_logger (with_buf h) ;;

  l <- get_logger ;;
  (if 0 <? len (contentPrefix l) then append (bytes_of (contentPrefix l))
   else ret tt) ;;

  let sLen := len s in
  newline <- (if 0 <? len s then
                c <- checked (index s (len s - 1)) ;; ret (Ascii.eqb c nl)
              else ret false) ;;
  sLen <- (if newline then
             append (bytes_of (slice_to s (len s - 1))) ;;
             ret (sLen - 1)
           else
             append (bytes_of s) ;;
             ret sLen) ;;

  l <- get_logger ;;
  (if 0 <? len (suffix l) then
     (if sLen <? MaxContextLen then append (spaces (MaxContextLen - sLen))
      else ret tt) ;;
     append (bytes_of (suffix l))
   else ret tt) ;;

  l <- get_logger ;;
  open <- (if blen (buf l) =? 0 then ret true
           else c <- checked (bindex (buf l) (blen (buf l) - 1)) ;;
                ret (negb (Ascii.eqb c nl))) ;;
  (if open then append [nl] else ret tt) ;;

  l <- get_logger ;;
  Write (buf l).

(* ===================================================================== *)
(** ** The methods that log *)
(* ===================================================================== *)

Definition Panic (v : list Value) : M unit :=
  s <- Sprint v ;;
  l <- get_logger ;;
  Output (callDepth l) s PanicLevel ;;
  panic (PanicString s).

Definition Panicf (format : string) (v : list Value) : M unit :=
  s <- Sprintf format v ;;
  l <- get_logger ;;
  Output (callDepth l) s PanicLevel ;;
  panic (PanicString s).

Definition Panicln (v : list Value) : M unit :=
  s <- Sprintln v ;;
  l <- get_logger ;;
  Output (callDepth l) s PanicLevel ;;
  panic (PanicString s).

Definition Fatal (v : list Value) : M unit :=
  l <- get_logger ;;
  s <- Sprint v ;;
  Output (callDepth l) s FatalLevel ;;
  os_Exit 1.

Definition Fatalf (format : string) (v : list Value) : M unit :=
  l <- get_logger ;;
  s <- Sprintf format v ;;
  Output (callDepth l) s FatalLevel ;;
  os_Exit 1.

Definition Fatalln (v : list Value) : M unit :=
  l <- get_logger ;;
  s <- Sprintln v ;;
  Output (callDepth l) s FatalLevel ;;
  os_Exit 1.

Definition Error (format : string) (v : list Value) : M unit :=
  l <- get_logger ;;
  if level l >=? ErrorLevel then
    s <- Sprintf format v ;; Output (callDepth l) s ErrorLevel ;; ret tt
  else ret tt.

Definition Errorf (format : string) (v : list Value) : M unit :=
  l <- get_logger ;;
  if level l >=? ErrorLevel then
    s <- Sprintf format v ;; Output (callDepth l) s ErrorLevel ;; ret tt
  else ret tt.

Definition Errorln (v : list Value) : M unit :=
  l <- get_logger ;;
  if level l >=? ErrorLevel then
    s <- Sprintln v ;; Output (callDepth l) s ErrorLevel ;; ret tt
  else ret tt.

Definition Warn (format : string) (v : list Value) : M unit :=
  l <- get_logger ;;
  if level l >=? WarnLevel then
    s <- Sprintf format v ;; Output (callDepth l) s WarnLevel ;; ret tt
  else ret tt.

Definition Warnf (format : string) (v : list Value) : M unit :=
  l <- get_logger ;;
  if level l >=? WarnLevel then
    s <- Sprintf format v ;; Output (callDepth l) s WarnLevel ;; ret tt
  else ret tt.

Definition Warnln (v : list Value) : M unit :=
  l <- get_logger ;;
  if level l >=? WarnLevel then
    s <- Sprintln v ;; Output (callDepth l) s WarnLevel ;; ret tt
  else ret tt.

Definition Info (format : string) (v : list Value) : M unit :=
  l <- get_logger ;;
  if level l >=? InfoLevel then
    s <- Sprintf format v ;; Output (callDepth l) s InfoLevel ;; ret tt
  else ret tt.

Definition Infof (format : string) (v : list Value) : M unit :=
  l <- get_logger ;;
  if level l >=? InfoLevel then
    s <- Sprintf format v ;; Output (callDepth l) s InfoLevel ;; ret tt
  else ret tt.

Definition Infoln (v : list Value) : M unit :=
  l <- get_logger ;;
  if level l >=? InfoLevel then
    s <- Sprintln v ;; Output (callDepth l) s InfoLevel ;; ret tt
  else ret tt.

Definition Debug (format : string) (v : list Value) : M unit :=
  l <- get_logger ;;
  if level l >=? DebugLevel then
    s <- Sprintf format v ;; Output (callDepth l) s DebugLevel ;; ret tt
  else ret tt.

Definition Debugf (format : string) (v : list Value) : M unit :=
  l <- get_logger ;;
  if level l >=? DebugLevel then
    s <- Sprintf format v ;; Output (callDepth l) s DebugLevel ;; ret tt
  else ret tt.

Definition Debugln (v : list Value) : M unit :=
  l <- get_logger ;;
  if level l >=? DebugLevel then
    s <- Sprintln v ;; Output (callDepth l) s DebugLevel ;; ret tt
  else ret tt.

Definition Verbose (format : string) (v : list Value) : M unit :=
  l <- get_logger ;;
  if level l >=? VerboseLevel then
    s <- Sprintf format v ;; Output (callDepth l) s VerboseLevel ;; ret tt
  else ret tt.

Definition Verbosef (format : string) (v : list Value) : M unit :=
  l <- get_logger ;;
  if level l >=? VerboseLevel then
    s <- Sprintf format v ;; Output (callDepth l) s VerboseLevel ;; ret tt
  else ret tt.

Definition Verboseln (v : list Value) : M unit :=
  l <- get_logger ;;
  if level l >=? VerboseLevel then
    s <- Sprintln v ;; Output (callDepth l) s VerboseLevel ;; ret tt
  else ret tt.

Definition Print (v : list Value) : M unit :=
  l <- get_logger ;;
  s <- Sprint v ;; Output (callDepth l) s (level l) ;; ret tt.

Definition Printf (format : string) (v : list Value) : M unit :=
  l <- get_logger ;;
  s <- Sprintf format v ;; Output (callDepth l) s (level l) ;; ret tt.

Definition Println (v : list Value) : M unit :=
  l <- get_logger ;;
  s <- Sprintln v ;; Output (callDepth l) s (level l) ;; ret tt.

(* ===================================================================== *)
(** ** Setters and getters *)
(* ===================================================================== *)

Definition IncrOneCallDepth : M unit :=
  update_logger (fun l => with_callDepth (int_of (callDepth l + 1)) l).
Definition SetCallDepth (callDepth : int) : M unit :=
  update_logger (with_callDepth callDepth).
Definition SetIsTerminal (isTerminal : int) : M unit :=
  update_logger (with_isTerminal isTerminal).
Definition SetOutput (w : Writer) : M unit := update_logger (with_out w).

Definition GetLevel : M Level := l <- get_logger ;; ret (level l).
Definition SetLevel (level : Level) : M unit := update_logger (with_level level).
Definition Flags : M int := l <- get_logger ;; ret (flag l).
Definition SetFlags (flag : int) : M unit := update_logger (with_flag flag).
Definition Prefix : M string := l <- get_logger ;; ret (prefix l).
Definition SetPrefix (prefix : string) : M unit := update_logger (with_prefix prefix).
Definition ContentPrefix : M string := l <- get_logger ;; ret (contentPrefix l).
Definition SetContentPrefix (prefix : string) : M unit :=
  update_logger (with_contentPrefix prefix).
Definition Suffix : M string := l <- get_logger ;; ret (suffix l).
Definition SetSuffix (suffix : string) : M unit := update_logger (with_suffix suffix).

End Log.

(* ===================================================================== *)
(** * Package uhash *)
(* ===================================================================== *)

Module Uhash.

(** [crypto/md5]: the running digest that [md5.New] returns, with the
    methods [Write(p) (n, err)] and [Sum(b)] of [hash.Hash]. *)
Class Md5 : Type := {
  Digest : Type;
  md5_New : Digest;
  Digest_Write : Digest -> bytes -> Digest * (int * option error);
  Digest_Sum : Digest -> bytes -> bytes
}.

(** [encoding/hex]: two digits of [hextable] for every byte, the high
    half first. *)
Definition hextable : string := "0123456789abcdef".

Definition hex_digit (n : N) : byte :=
  match String.get (N.to_nat n) hextable with Some c => c | None => "0"%char end.

Definition hex_EncodeToString (src : bytes) : string :=
  string_of_list_ascii
    (flat_map (fun b => [hex_digit (N.shiftr (N_of_ascii b) 4);
                         hex_digit (N.land (N_of_ascii b) 15)]) src).

Section MD5.

Context {md5 : Md5}.

Definition MD5 (data : bytes) : string * option error :=
  let hasher := md5_New in
  let '(hasher, (_, err)) := Digest_Write hasher data in
  match err with
  | Some e => ("", Some e)
  | None => (hex_EncodeToString (Digest_Sum hasher []), None)
  end.

Definition MD5String (str : string) : string * option error :=
  MD5 (bytes_of str).

(** What package hash documents of every [hash.Hash]: [Write] never returns
    an error; and what [md5.Size] says: the checksum has 16 bytes. *)
Definition Write_never_fails : Prop :=
  forall h p, snd (snd (Digest_Write h p)) = None.
Definition Sum_has_md5_Size : Prop :=
  forall h, List.length (Digest_Sum h []) = 16%nat.

End MD5.

End Uhash.

(* ===================================================================== *)
(** * Notions used in the statements *)
(* ===================================================================== *)

(** The value of a decimal digit and of a string of digits. *)
Definition digit_val (c : byte) : Z := Z.of_N (N_of_ascii c) - 48.
Definition is_digit (c : byte) : Prop := 0 <= digit_val c <= 9.
Definition dec_value (d : bytes) : Z :=
  fold_left (fun a c => 10 * a + digit_val c) d 0.

(** What [itoa] appends. *)
Definition digits (i wid : Z) : bytes :=
  match itoa_loop 20 i wid [] with Some d => d | None => [] end.

Section LogNotions.

Context {rt : GoRuntime} {ld : LevelDecls}.

(** What the three blocks of [formatHeader] append. *)
Definition level_segment (l : Logger) (level : Level) : bytes :=
  formatHeader_level l level [].
Definition time_segment (l : Logger) (t : Time) : bytes :=
  match formatHeader_time l t [] with Some d => d | None => [] end.
Definition file_segment (l : Logger) (file : string) (line : int) : bytes :=
  match formatHeader_file l file line [] with Some d => d | None => [] end.
Definition header (l : Logger) (t : Time) (file : string) (line : int) (level : Level)
    : bytes :=
  bytes_of (prefix l) ++ level_segment l level ++ time_segment l t
    ++ file_segment l file line.

(** The byte slice ends in a newline. *)
Definition ends_nl (x : bytes) : bool :=
  match x with [] => false | _ => Ascii.eqb (last x " "%char) nl end.

(** The message without the one newline [Output] strips. *)
Definition stripped (s : string) : bytes :=
  if ends_nl (bytes_of s) then removelast (bytes_of s) else bytes_of s.

(** The padding and the suffix. *)
Definition padded_suffix (l : Logger) (s : string) : bytes :=
  if 0 <? len (suffix l) then
    (if blen (stripped s) <? MaxContextLen
     then spaces (MaxContextLen - blen (stripped s)) else [])
    ++ bytes_of (suffix l)
  else [].

(** The buffer before the final newline is considered. *)
Definition assembled (l : Logger) (h : bytes) (s : string) : bytes :=
  h ++ bytes_of (contentPrefix l) ++ stripped s ++ padded_suffix l s.

Definition terminated (x : bytes) : bytes :=
  if ends_nl x then x else x ++ [nl].

(** The caller's position as [Output] finds it, the world after the
    lookup and the call made. *)
Definition located (l : Logger) (calldepth : int) (w : World)
    : (string * int) * World * list Event :=
  if has (flag l) (Z.lor Lshortfile Llongfile) then
    let '(r, w') := runtime_Caller calldepth w in
    (match r with Some fl => fl | None => ("???", int_of 0) end,
     w', [EvCaller calldepth])
  else (("", int_of 0), w, []).

(** The whole of one call to [Output]. *)
Definition Output_result (calldepth : int) (s : string) (level : Level) (st : State)
    : Outcome (option error) * State :=
  let l := logger st in
  let '(t, w1) := time_Now (world st) in
  let '((file, line), w2, evs) := located l calldepth w1 in
  let p := terminated (assembled l (header l t file line level) s) in
  let '((_, err), w3) := out l p w2 in
  (Returned err,
   mkState (with_buf p l) w3 (trace st ++ EvNow :: evs ++ [EvWrite p])).

(** The byte slices handed to [Write] in a trace, oldest first. *)
Definition writes (tr : list Event) : list (list ascii) :=
  flat_map (fun e => match e with EvWrite p => [p] | _ => [] end) tr.

(** The reading of the clock and the position of the caller in one call to
    [Output], the header made of them, and the line assembled. *)
Definition call_time (st : State) : Time := fst (time_Now (world st)).
Definition call_site (calldepth : int) (st : State) : string * int :=
  fst (fst (located (logger st) calldepth (snd (time_Now (world st))))).
Definition call_header (calldepth : int) (level : Level) (st : State) : bytes :=
  header (logger st) (call_time st)
         (fst (call_site calldepth st)) (snd (call_site calldepth st)) level.
Definition Output_line (calldepth : int) (s : string) (level : Level) (st : State)
    : bytes :=
  terminated (assembled (logger st) (call_header calldepth level st) s).

(** The world in which [Output] calls [Write]. *)
Definition world_at_write (calldepth : int) (st : State) : World :=
  snd (fst (located (logger st) calldepth (snd (time_Now (world st))))).

(** The five gated levels and the three methods of each. *)
Inductive Gated : Type := GError | GWarn | GInfo | GDebug | GVerbose.
Inductive Style : Type := Print_style | Printf_style | Println_style.

Definition gate (g : Gated) : Level :=
  match g with
  | GError => ErrorLevel | GWarn => WarnLevel | GInfo => InfoLevel
  | GDebug => DebugLevel | GVerbose => VerboseLevel
  end.

Definition gated_method (g : Gated) (sty : Style) (format : string) (v : list Value)
    : M unit :=
  match g, sty with
  | GError, Print_style => Error format v
  | GError, Printf_style => Errorf format v
  | GError, Println_style => Errorln v
  | GWarn, Print_style => Warn format v
  | GWarn, Printf_style => Warnf format v
  | GWarn, Println_style => Warnln v
  | GInfo, Print_style => Info format v
  | GInfo, Printf_style => Infof format v
  | GInfo, Println_style => Infoln v
  | GDebug, Print_style => Debug format v
  | GDebug, Printf_style => Debugf format v
  | GDebug, Println_style => Debugln v
  | GVerbose, Print_style => Verbose format v
  | GVerbose, Printf_style => Verbosef format v
  | GVerbose, Println_style => Verboseln v
  end.

(** The message a gated method formats. *)
Definition gated_message (sty : Style) (format : string) (v : list Value) : string :=
  match sty with
  | Print_style | Printf_style => fmt_Sprintf format v
  | Println_style => fmt_Sprintln v
  end.

(** From [st] the method [m] formats [msg], calls [Output] on it at level
    [lv], and then ends as [e]: the final state is the one [Output] leaves,
    and the last call in the trace is the [Write]. *)
Definition logs_then_ends (m : M unit) (msg : string) (lv : Level) (e : Outcome unit)
    (st : State) : Prop :=
  m st = (e, snd (Output (callDepth (logger st)) msg lv (emit (EvFormat msg) st)))
  /\ exists p evs,
       trace (snd (m st)) = trace st ++ EvFormat msg :: evs ++ [EvWrite p]
       /\ writes evs = [].

(** The fields of a Logger other than one. *)
Definition but_level (l : Logger) :=
  (contentPrefix l, prefix l, suffix l, flag l, buf l, out l, isTerminal l, callDepth l).
Definition but_flag (l : Logger) :=
  (contentPrefix l, prefix l, suffix l, buf l, level l, out l, isTerminal l, callDepth l).
Definition but_prefix (l : Logger) :=
  (contentPrefix l, suffix l, flag l, buf l, level l, out l, isTerminal l, callDepth l).
Definition but_contentPrefix (l : Logger) :=
  (prefix l, suffix l, flag l, buf l, level l, out l, isTerminal l, callDepth l).
Definition but_suffix (l : Logger) :=
  (contentPrefix l, prefix l, flag l, buf l, level l, out l, isTerminal l, callDepth l).

(** The setter [set] returns on every value, changes nothing outside the
    Logger and nothing in it but what [rest] leaves out, and the getter
    [get] then returns the value set, changing nothing. *)
Definition set_then_get {A R : Type} (set : A -> M unit) (get : M A)
    (rest : Logger -> R) (st : State) : Prop :=
  forall v : A, exists l',
    set v st = (Returned tt, mkState l' (world st) (trace st))
    /\ rest l' = rest (logger st)
    /\ get (mkState l' (world st) (trace st))
       = (Returned v, mkState l' (world st) (trace st))
    /\ bind (set v) (fun _ => get) st = (Returned v, mkState l' (world st) (trace st)).

(** The six flag bits of logconst.go together. *)
Definition declared_flags : Z :=
  Z.lor Ldate (Z.lor Ltime (Z.lor Lmicroseconds (Z.lor Llongfile (Z.lor Lshortfile LUTC)))).

(** [LLevel] is a bit of its own. *)
Definition LLevel_fresh : Prop := Z.land LLevel declared_flags = 0.

(** The calendar reading [c] shows the given date and time of day. *)
Definition reads (c : Civil) (y mo d h mi sec : Z) : Prop :=
  intval (year c) = y /\ intval (month c) = mo /\ intval (day c) = d /\
  intval (hour c) = h /\ intval (minute c) = mi /\ intval (second c) = sec.

(** The byte slice ends in one newline and no more. *)
Definition one_trailing_nl (x : bytes) : bool :=
  ends_nl x && negb (ends_nl (removelast x)).

(** What package fmt documents of the two formats [formatHeader] uses: the
    verb [%s] writes a string operand as it is, and [%d] writes an integer
    operand in some rendering [dec]; the other bytes of the format are
    copied. *)
Definition fmt_plain_law : Prop :=
  forall s : string, fmt_Sprintf "%s" [box_string s] = s.
Definition fmt_colour_law (dec : Z -> string) : Prop :=
  forall (c : Z) (s : string),
    fmt_Sprintf (String esc "[%dm%s" ++ String esc "[0m") [box_int c; box_string s]
    = (String esc "[" ++ dec c ++ "m" ++ s ++ String esc "[0m")%string.

(** A sink that takes everything. *)
Definition discard : Writer := fun p w => ((int_of (blen p), None), w).

End LogNotions.

Module UhashNotions.
Import Uhash.

(** A digit of lowercase hexadecimal. *)
Definition is_lower_hex (c : byte) : Prop :=
  In c (bytes_of hextable).

(** The value of a digit of [hextable], and the bytes a string of such
    digits stands for, two digits to the byte. *)
Definition hex_val (c : byte) : N :=
  match String.index 0 (String c "") hextable with
  | Some n => N.of_nat n
  | None => 0%N
  end.

Fixpoint hex_bytes (d : bytes) : bytes :=
  match d with
  | hi :: lo :: rest => ascii_of_N (16 * hex_val hi + hex_val lo) :: hex_bytes rest
  | _ => []
  end.

End UhashNotions.

(* ===================================================================== *)
(** * A world to run the logger in *)
(* ===================================================================== *)

Module Sim.

(** The clock stands still, the stack is known or not, and the sink keeps
    what it is given and answers every write with [sink_error]. *)
Record SimWorld : Type := mkSim {
  clock : Time;
  frame : option (string * int);
  sink_error : option error;
  sunk : list (list ascii)
}.

(** A stand-in for package fmt: a value is its text; [Sprint] joins the
    operands, [Sprintln] joins them with spaces and ends the line,
    [Sprintf] puts them after the format. *)
#[export] Instance sim_rt : GoRuntime := {|
  World := SimWorld;
  time_Now := fun w => (clock w, w);
  runtime_Caller := fun _ w => (frame w, w);
  Value := string;
  box_int := fun z => string_of_list_ascii (digits z (-1));
  box_string := fun s => s;
  fmt_Sprint := String.concat "";
  fmt_Sprintf := fun f v => (f ++ String.concat "" v)%string;
  fmt_Sprintln := fun v => (String.concat " " v ++ String nl "")%string
|}.

#[export] Instance sim_ld : LevelDecls := {|
  LLevel := Z.shiftl 1 6;
  Level_String := fun lv =>
    if lv =? PanicLevel then "panic" else if lv =? FatalLevel then "fatal"
    else if lv =? ErrorLevel then "error" else if lv =? WarnLevel then "warn"
    else if lv =? InfoLevel then "info" else if lv =? DebugLevel then "debug"
    else "verbose";
  Level_Color := fun lv => if lv <=? ErrorLevel then 31 else 37
|}.

Definition sim_sink : Writer :=
  fun p w => ((int_of (blen p), sink_error w),
              mkSim (clock w) (frame w) (sink_error w) (sunk w ++ [p])).

(** 2009-01-23 01:23:23.123123456, the same in UTC. *)
Definition t2009 : Time :=
  let c := mkCivil (int_of 2009) (int_of 1) (int_of 23)
                   (int_of 1) (int_of 23) (int_of 23) (int_of 123123456) in
  mkTime c c.

Definition w2009 : SimWorld := mkSim t2009 (Some ("/a/b/c/d.go", int_of 23)) None [].
Definition w_lost : SimWorld := mkSim t2009 None (Some "disk full") [].

Definition start (l : Logger) (w : SimWorld) : State := mkState l w [].

Definition std : Logger :=
  New sim_sink "" "" (int_of LstdFlags) InfoLevel (int_of NotTerminal).
Definition micro : Logger :=
  New sim_sink "" "" (int_of (Z.lor LstdFlags Lmicroseconds)) InfoLevel
      (int_of NotTerminal).
Definition plain : Logger :=
  New sim_sink "" "" (int_of 0) InfoLevel (int_of NotTerminal).
Definition ruled : Logger :=
  New sim_sink "" " |" (int_of 0) InfoLevel (int_of NotTerminal).
Definition ruled_nl : Logger :=
  New sim_sink "" (String "s" (String nl "")) (int_of 0) InfoLevel (int_of NotTerminal).
Definition located_long : Logger :=
  New sim_sink "" "" (int_of Llongfile) WarnLevel (int_of NotTerminal).
Definition located_short : Logger :=
  New sim_sink "" "" (int_of Lshortfile) WarnLevel (int_of NotTerminal).
Definition located_both : Logger :=
  New sim_sink "" "" (int_of (Z.lor Lshortfile Llongfile)) WarnLevel (int_of NotTerminal).
Definition micro_only : Logger :=
  New sim_sink "" "" (int_of Lmicroseconds) InfoLevel (int_of NotTerminal).
Definition micro_time : Logger :=
  New sim_sink "" "" (int_of (Z.lor Ltime Lmicroseconds)) InfoLevel (int_of NotTerminal).

End Sim.

(** * The same world with the verbs of package fmt *)

Module SimFmt.

(** An integer in decimal, with its sign. *)
Definition decimal (z : Z) : string :=
  if z <? 0 then String "-" (string_of_list_ascii (digits (- z) (-1)))
  else string_of_list_ascii (digits z (-1)).

(** [Sprintf] over operands already turned into text: [%s], [%d] and [%v]
    take the next operand, [%%] is a percent sign, every other byte is
    copied.  A verb without an operand writes nothing. *)
Fixpoint sprintf (f : string) (v : list string) : string :=
  match f with
  | EmptyString => ""
  | String a rest =>
      if Ascii.eqb a "%" then
        match rest with
        | EmptyString => "%"
        | String c rest' =>
            if Ascii.eqb c "s" || Ascii.eqb c "d" || Ascii.eqb c "v" then
              match v with
              | x :: v' => (x ++ sprintf rest' v')%string
              | [] => sprintf rest' []
              end
            else String c (sprintf rest' v)
        end
      else String a (sprintf rest v)
  end.

#[export] Instance fmt_rt : GoRuntime := {|
  World := Sim.SimWorld;
  time_Now := fun w => (Sim.clock w, w);
  runtime_Caller := fun _ w => (Sim.frame w, w);
  Value := string;
  box_int := decimal;
  box_string := fun s => s;
  fmt_Sprint := String.concat "";
  fmt_Sprintf := sprintf;
  fmt_Sprintln := fun v => (String.concat " " v ++ String nl "")%string
|}.

#[export] Instance fmt_ld : LevelDecls := Sim.sim_ld.

Definition fmt_sink : Writer :=
  fun p w => ((int_of (blen p), Sim.sink_error w),
              Sim.mkSim (Sim.clock w) (Sim.frame w) (Sim.sink_error w) (Sim.sunk w ++ [p])).

(** Two Loggers with the level tag, one on a terminal and one not. *)
Definition tagged_terminal : Logger :=
  New fmt_sink "" "" (int_of LLevel) InfoLevel (int_of IsTerminal).
Definition tagged_file : Logger :=
  New fmt_sink "" "" (int_of LLevel) InfoLevel (int_of NotTerminal).

End SimFmt.

(** * A digest to run MD5 with: the algorithm of RFC 1321 *)

Module Rfc1321.
Import Uhash.

Definition mask32 (z : Z) : Z := z mod 2 ^ 32.
Definition not32 (x : Z) : Z := 2 ^ 32 - 1 - x.
Definition rotl32 (x c : Z) : Z :=
  mask32 (Z.lor (Z.shiftl x c) (Z.shiftr x (32 - c))).

(** floor(2^32 * |sin(i + 1)|) for i = 0 .. 63. *)
Definition sines : list Z :=
  [3614090360; 3905402710; 606105819; 3250441966; 4118548399; 1200080426;
   2821735955; 4249261313; 1770035416; 2336552879; 4294925233; 2304563134;
   1804603682; 4254626195; 2792965006; 1236535329; 4129170786; 3225465664;
   643717713; 3921069994; 3593408605; 38016083; 3634488961; 3889429448;
   568446438; 3275163606; 4107603335; 1163531501; 2850285829; 4243563512;
   1735328473; 2368359562; 4294588738; 2272392833; 1839030562; 4259657740;
   2763975236; 1272893353; 4139469664; 3200236656; 681279174; 3936430074;
   3572445317; 76029189; 3654602809; 3873151461; 530742520; 3299628645;
   4096336452; 1126891415; 2878612391; 4237533241; 1700485571; 2399980690;
   4293915773; 2240044497; 1873313359; 4264355552; 2734768916; 1309151649;
   4149444226; 3174756917; 718787259; 3951481745].

Definition shifts : list Z :=
  [7; 12; 17; 22; 7; 12; 17; 22; 7; 12; 17; 22; 7; 12; 17; 22;
   5; 9; 14; 20; 5; 9; 14; 20; 5; 9; 14; 20; 5; 9; 14; 20;
   4; 11; 16; 23; 4; 11; 16; 23; 4; 11; 16; 23; 4; 11; 16; 23;
   6; 10; 15; 21; 6; 10; 15; 21; 6; 10; 15; 21; 6; 10; 15; 21].

(** The 32-bit words of a block, low byte first. *)
Fixpoint words (bs : list Z) : list Z :=
  match bs with
  | b0 :: b1 :: b2 :: b3 :: rest =>
      (b0 + 256 * b1 + 65536 * b2 + 16777216 * b3) :: words rest
  | _ => []
  end.

Definition word_bytes (w : Z) : list Z :=
  [w mod 256; (w / 256) mod 256; (w / 65536) mod 256; (w / 16777216) mod 256].

Definition round (m : list Z) (st : Z * Z * Z * Z) (i : nat) : Z * Z * Z * Z :=
  let '(a, b, c, d) := st in
  let iz := Z.of_nat i in
  let '(f, g) :=
    if iz <? 16 then (Z.lor (Z.land b c) (Z.land (not32 b) d), iz)
    else if iz <? 32 then (Z.lor (Z.land d b) (Z.land (not32 d) c), (5 * iz + 1) mod 16)
    else if iz <? 48 then (Z.lxor (Z.lxor b c) d, (3 * iz + 5) mod 16)
    else (Z.lxor c (Z.lor b (not32 d)), (7 * iz) mod 16) in
  let f := mask32 (f + a + nth i sines 0 + nth (Z.to_nat g) m 0) in
  (d, mask32 (b + rotl32 f (nth i shifts 0)), b, c).

Definition block (st : Z * Z * Z * Z) (bs : list Z) : Z * Z * Z * Z :=
  let '(a0, b0, c0, d0) := st in
  let '(a, b, c, d) := fold_left (round (words bs)) (seq 0 64) st in
  (mask32 (a0 + a), mask32 (b0 + b), mask32 (c0 + c), mask32 (d0 + d)).

(** The message, a one bit, zeros up to 56 modulo 64, and the length in
    bits as 64 bits, low byte first. *)
Definition padded (msg : list Z) : list Z :=
  let n := Z.of_nat (List.length msg) in
  msg ++ [128] ++ repeat 0 (Z.to_nat ((55 - n) mod 64))
      ++ word_bytes (mask32 (8 * n)) ++ word_bytes (mask32 ((8 * n) / 2 ^ 32)).

Fixpoint blocks (fuel : nat) (st : Z * Z * Z * Z) (bs : list Z) : Z * Z * Z * Z :=
  match fuel, bs with
  | S fuel', _ :: _ => blocks fuel' (block st (firstn 64 bs)) (skipn 64 bs)
  | _, _ => st
  end.

Definition checksum (msg : list ascii) : list ascii :=
  let bs := padded (map (fun c => Z.of_N (N_of_ascii c)) msg) in
  let '(a, b, c, d) :=
    blocks (List.length bs) (1732584193, 4023233417, 2562383102, 271733878) bs in
  map byte_of_Z (word_bytes a ++ word_bytes b ++ word_bytes c ++ word_bytes d).

(** The digest keeps what it was given; [Sum] appends the checksum. *)
#[export] Instance md5 : Md5 := {|
  Digest := list ascii;
  md5_New := [];
  Digest_Write := fun h p => (h ++ p, (int_of (blen p), None));
  Digest_Sum := fun h b => b ++ checksum h
|}.

(** Two inputs of 128 bytes that differ in six bytes and have the same
    checksum, 79054025255fb1a26e4bc422aef54eb4. *)
Definition collision_a : list ascii :=
  map (fun n => ascii_of_N n)
    [209; 49; 221; 2; 197; 230; 238; 196; 105; 61; 154; 6; 152; 175; 249; 92;
     47; 202; 181; 135; 18; 70; 126; 171; 64; 4; 88; 62; 184; 251; 127; 137;
     85; 173; 52; 6; 9; 244; 179; 2; 131; 228; 136; 131; 37; 113; 65; 90;
     8; 81; 37; 232; 247; 205; 201; 159; 217; 29; 189; 242; 128; 55; 60; 91;
     216; 130; 62; 49; 86; 52; 143; 91; 174; 109; 172; 212; 54; 201; 25; 198;
     221; 83; 226; 180; 135; 218; 3; 253; 2; 57; 99; 6; 210; 72; 205; 160;
     233; 159; 51; 66; 15; 87; 126; 232; 206; 84; 182; 112; 128; 168; 13; 30;
     198; 152; 33; 188; 182; 168; 131; 147; 150; 249; 101; 43; 111; 247; 42; 112]%N.

Definition collision_b : list ascii :=
  map (fun n => ascii_of_N n)
    [209; 49; 221; 2; 197; 230; 238; 196; 105; 61; 154; 6; 152; 175; 249; 92;
     47; 202; 181; 7; 18; 70; 126; 171; 64; 4; 88; 62; 184; 251; 127; 137;
     85; 173; 52; 6; 9; 244; 179; 2; 131; 228; 136; 131; 37; 241; 65; 90;
     8; 81; 37; 232; 247; 205; 201; 159; 217; 29; 189; 114; 128; 55; 60; 91;
     216; 130; 62; 49; 86; 52; 143; 91; 174; 109; 172; 212; 54; 201; 25; 198;
     221; 83; 226; 52; 135; 218; 3; 253; 2; 57; 99; 6; 210; 72; 205; 160;
     233; 159; 51; 66; 15; 87; 126; 232; 206; 84; 182; 112; 128; 40; 13; 30;
     198; 152; 33; 188; 182; 168; 131; 147; 150; 249; 101; 171; 111; 247; 42; 112]%N.

End Rfc1321.

(* ===================================================================== *)
(** * Properties *)
(* ===================================================================== *)

(** ** Machine integers *)

Lemma wrap_is_int (z : Z) : is_int (wrap z) = true.
Proof.
  unfold is_int, wrap, int_min, int_max.
  pose proof (Z.mod_pos_bound (z + 2 ^ 63) (2 ^ 64) ltac:(lia)) as H.
  apply andb_true_intro; split; apply Z.leb_le; lia.
Qed.

Lemma wrap_small (z : Z) : int_min <= z <= int_max -> wrap z = z.
Proof.
  unfold wrap, int_min, int_max; intros H.
  rewrite Z.mod_small by lia. lia.
Qed.

Lemma int_bounds (i : int) : int_min <= i <= int_max.
Proof.
  destruct i as [z Hz]; simpl. unfold is_int in Hz.
  apply andb_prop in Hz. destruct Hz as [H1 H2].
  apply Z.leb_le in H1. apply Z.leb_le in H2. lia.
Qed.

Lemma int_eq (a b : int) : intval a = intval b -> a = b.
Proof.
  destruct a as [x Hx], b as [y Hy]; simpl; intros ->.
  f_equal. apply (UIP_dec bool_dec).
Qed.

Lemma int_of_wrap (z : Z) : intval (int_of z) = wrap z.
Proof.
  unfold int_of.
  generalize (@eq_refl bool (is_int (wrap z))).
  generalize (wrap_is_int z).
  generalize (is_int (wrap z)) at 1 3 4.
  intros b Hb. destruct b; [reflexivity | discriminate].
Qed.

Lemma int_of_val (i : int) : int_of i = i.
Proof. apply int_eq. rewrite int_of_wrap. apply wrap_small, int_bounds. Qed.

(** ** Strings *)

Lemma get_in_range (s : string) (n : nat) :
  (n < String.length s)%nat -> exists c, String.get n s = Some c.
Proof.
  revert n. induction s as [|a s IH]; simpl; intros n H; [lia|].
  destruct n as [|n]; [eauto|]. apply IH. lia.
Qed.

Lemma index_in_range (s : string) (i : Z) :
  0 <= i < len s -> exists c, index s i = Some c.
Proof.
  intros H. unfold index.
  replace ((0 <=? i) && (i <? len s)) with true
    by (symmetry; apply andb_true_intro; split; [apply Z.leb_le | apply Z.ltb_lt]; lia).
  apply get_in_range. unfold len in H. lia.
Qed.

Lemma get_nth_error (s : string) (n : nat) :
  String.get n s = nth_error (bytes_of s) n.
Proof.
  unfold bytes_of. revert n. induction s as [|a s IH]; intros [|n]; simpl; auto.
Qed.

Lemma bytes_of_length (s : string) : blen (bytes_of s) = len s.
Proof.
  unfold blen, len, bytes_of. f_equal. induction s; simpl; congruence.
Qed.

Lemma bytes_of_app (a b : string) :
  bytes_of (a ++ b)%string = bytes_of a ++ bytes_of b.
Proof. unfold bytes_of. induction a; simpl; congruence. Qed.

Lemma bytes_of_substring (n m : nat) (s : string) :
  bytes_of (String.substring n m s) = firstn m (skipn n (bytes_of s)).
Proof.
  unfold bytes_of. revert n m.
  induction s as [|a s IH]; intros [|n] [|m]; simpl; auto.
  f_equal. apply (IH O m).
Qed.

Lemma bytes_of_inj (a b : string) : bytes_of a = bytes_of b -> a = b.
Proof.
  intros H. rewrite <- (string_of_list_ascii_of_string a),
    <- (string_of_list_ascii_of_string b). unfold bytes_of in H. congruence.
Qed.

Lemma index_bindex (s : string) (i : Z) : index s i = bindex (bytes_of s) i.
Proof.
  unfold index, bindex. rewrite bytes_of_length.
  destruct ((0 <=? i) && (i <? len s)); [apply get_nth_error | reflexivity].
Qed.

Lemma bindex_last (b : bytes) (d : byte) :
  b <> [] -> bindex b (blen b - 1) = Some (last b d).
Proof.
  intros H. unfold bindex, blen.
  destruct b as [|x b]; [congruence|]. clear H.
  replace ((0 <=? _) && (_ <? _)) with true
    by (symmetry; apply andb_true_intro; split;
        [apply Z.leb_le | apply Z.ltb_lt]; simpl List.length; lia).
  replace (Z.to_nat (Z.of_nat (List.length (x :: b)) - 1)) with (List.length b)
    by (simpl List.length; lia).
  revert x. induction b as [|y b IH]; intros x; [reflexivity|].
  change (nth_error (y :: b) (List.length b) = Some (last (y :: b) d)). apply IH.
Qed.

Lemma slice_to_removelast (s : string) :
  bytes_of (slice_to s (len s - 1)) = removelast (bytes_of s).
Proof.
  unfold slice_to. rewrite bytes_of_substring. simpl skipn.
  rewrite removelast_firstn_len. f_equal.
  pose proof (bytes_of_length s) as H. unfold blen, len in *. lia.
Qed.

Lemma blen_app (a b : bytes) : blen (a ++ b) = blen a + blen b.
Proof. unfold blen. rewrite length_app. lia. Qed.

Lemma blen_zero (b : bytes) : blen b = 0 <-> b = [].
Proof. unfold blen. destruct b; simpl; split; intros; try congruence; lia. Qed.

(** ** itoa *)

Lemma dec_value_snoc (d : bytes) (c : byte) :
  dec_value (d ++ [c]) = 10 * dec_value d + digit_val c.
Proof. unfold dec_value. rewrite fold_left_app. reflexivity. Qed.

Lemma digit_val_byte (r : Z) : 0 <= r <= 9 -> digit_val (byte_of_Z (48 + r)) = r.
Proof.
  intros H.
  assert (r = 0 \/ r = 1 \/ r = 2 \/ r = 3 \/ r = 4 \/ r = 5 \/ r = 6 \/
          r = 7 \/ r = 8 \/ r = 9) as D by lia.
  repeat (destruct D as [-> | D]; [reflexivity|]). subst r. reflexivity.
Qed.

Lemma quot10_bounds (i : Z) :
  0 <= i -> 0 <= Z.quot i 10 /\ 0 <= i - Z.quot i 10 * 10 <= 9.
Proof.
  intros H. rewrite Z.quot_div_nonneg by lia.
  pose proof (Z.div_mod i 10 ltac:(lia)).
  pose proof (Z.mod_pos_bound i 10 ltac:(lia)).
  pose proof (Z.div_pos i 10 H ltac:(lia)). lia.
Qed.

Lemma quot10_lt_pow (i : Z) (n : Z) :
  0 <= n -> i < 10 ^ (n + 1) -> Z.quot i 10 < 10 ^ n.
Proof.
  intros Hn H. rewrite Z.pow_add_r, Z.pow_1_r in H by lia.
  pose proof (Z.pow_pos_nonneg 10 n ltac:(lia) Hn) as Hp.
  destruct (Z_lt_le_dec i 0) as [Hneg | Hpos].
  - pose proof (Z.quot_opp_l i 10 ltac:(lia)) as Ho.
    pose proof (Z.quot_pos (- i) 10 ltac:(lia) ltac:(lia)). lia.
  - apply Z.quot_lt_upper_bound; lia.
Qed.

Lemma itoa_loop_wraps (slots : nat) (i wid : Z) (acc : bytes) :
  itoa_loop (S slots) i wid acc =
  if (10 <=? i) || (1 <? wid)
  then itoa_loop slots (Z.quot i 10) (wrap (wid - 1))
         (byte_of_Z (48 + i - Z.quot i 10 * 10) :: acc)
  else Some (byte_of_Z (48 + i) :: acc).
Proof. reflexivity. Qed.

(** Above the smallest machine integer [wid--] is a plain decrement. *)
Lemma itoa_loop_S (slots : nat) (i wid : Z) (acc : bytes) :
  int_min < wid <= int_max ->
  itoa_loop (S slots) i wid acc =
  if (10 <=? i) || (1 <? wid)
  then itoa_loop slots (Z.quot i 10) (wid - 1)
         (byte_of_Z (48 + i - Z.quot i 10 * 10) :: acc)
  else Some (byte_of_Z (48 + i) :: acc).
Proof.
  intros H. rewrite itoa_loop_wraps, (wrap_small (wid - 1)) by lia. reflexivity.
Qed.

Lemma int_room : int_min + 20 <= -1 /\ 20 <= int_max.
Proof. unfold int_min, int_max. lia. Qed.

(** With a cell left for every digit and every column, the loop ends
    inside the array. *)
Lemma itoa_loop_some (n : nat) : forall (i wid : Z) (acc : bytes),
  i < 10 ^ Z.of_nat (S n) -> wid <= Z.of_nat (S n) ->
  int_min + Z.of_nat (S n) <= wid <= int_max ->
  exists d, itoa_loop (S n) i wid acc = Some (d ++ acc).
Proof.
  induction n as [|n IH]; intros i wid acc Hi Hw Hr.
  - rewrite itoa_loop_S by lia. change (10 ^ Z.of_nat 1) with 10 in Hi.
    replace (10 <=? i) with false by (symmetry; apply Z.leb_gt; lia).
    replace (1 <? wid) with false by (symmetry; apply Z.ltb_ge; lia).
    exists [byte_of_Z (48 + i)]. reflexivity.
  - rewrite itoa_loop_S by lia.
    destruct ((10 <=? i) || (1 <? wid)).
    + destruct (IH (Z.quot i 10) (wid - 1)
                  (byte_of_Z (48 + i - Z.quot i 10 * 10) :: acc)) as [d Hd].
      * apply quot10_lt_pow; [lia|].
        replace (Z.of_nat (S n) + 1) with (Z.of_nat (S (S n))) by lia. exact Hi.
      * lia.
      * lia.
      * exists (d ++ [byte_of_Z (48 + i - Z.quot i 10 * 10)]).
        rewrite Hd, <- app_assoc. reflexivity.
    + exists [byte_of_Z (48 + i)]. reflexivity.
Qed.

(** In [wid] columns a number below [10 ^ wid] is rendered as exactly
    [wid] decimal digits, padded with zeros on the left. *)
Lemma itoa_loop_padded (n : nat) : forall (i wid : Z) (acc : bytes),
  0 <= i < 10 ^ wid -> 1 <= wid <= Z.of_nat n -> wid <= int_max ->
  exists d, itoa_loop n i wid acc = Some (d ++ acc) /\
            blen d = wid /\ Forall is_digit d /\ dec_value d = i.
Proof.
  pose proof int_room as Room.
  induction n as [|n IH]; intros i wid acc Hi Hw Hmax; [lia|].
  rewrite itoa_loop_S by lia.
  destruct (Z.eq_dec wid 1) as [-> | Hne].
  - change (10 ^ 1) with 10 in Hi.
    replace (10 <=? i) with false by (symmetry; apply Z.leb_gt; lia).
    replace (1 <? 1) with false by reflexivity. cbn [orb].
    exists [byte_of_Z (48 + i)].
    repeat split.
    + constructor; [|constructor]. unfold is_digit.
      rewrite digit_val_byte; lia.
    + unfold dec_value; cbn [fold_left]. rewrite digit_val_byte; lia.
  - replace (1 <? wid) with true by (symmetry; apply Z.ltb_lt; lia).
    rewrite orb_true_r.
    destruct (@quot10_bounds i ltac:(lia)) as [Hq Hr].
    set (q := Z.quot i 10) in *.
    destruct (IH q (wid - 1) (byte_of_Z (48 + i - q * 10) :: acc)) as (d & Hd & Hl & Hf & Hv).
    + split; [lia|]. replace wid with ((wid - 1) + 1) in Hi by lia.
      apply quot10_lt_pow; lia.
    + lia.
    + lia.
    + exists (d ++ [byte_of_Z (48 + i - q * 10)]).
      replace (48 + i - q * 10) with (48 + (i - q * 10)) in * by lia.
      repeat split.
      * rewrite Hd, <- app_assoc. reflexivity.
      * rewrite blen_app, Hl. unfold blen; simpl. lia.
      * apply Forall_app; split; [assumption|].
        constructor; [|constructor]. unfold is_digit. rewrite digit_val_byte; lia.
      * rewrite dec_value_snoc, Hv, digit_val_byte; lia.
Qed.

(** Without padding ([wid <= 1]) a number that is not negative is rendered
    with as few digits as it has: one digit below ten, and no leading zero
    from ten on. *)
Lemma itoa_loop_minimal (n : nat) : forall (i wid : Z) (acc : bytes),
  0 <= i < 10 ^ Z.of_nat (S n) -> wid <= 1 -> int_min + Z.of_nat (S n) <= wid ->
  exists d, itoa_loop (S n) i wid acc = Some (d ++ acc) /\
            Forall is_digit d /\ dec_value d = i /\
            (i < 10 -> d = [byte_of_Z (48 + i)]) /\
            (10 <= i -> digit_val (hd "0"%char d) <> 0).
Proof.
  assert (forall i acc, 0 <= i < 10 ->
            exists d, Some (byte_of_Z (48 + i) :: acc) = Some (d ++ acc) /\
            Forall is_digit d /\ dec_value d = i /\
            (i < 10 -> d = [byte_of_Z (48 + i)]) /\
            (10 <= i -> digit_val (hd "0"%char d) <> 0)) as One.
  { intros i acc Hi. exists [byte_of_Z (48 + i)]. repeat split.
    - constructor; [|constructor]. unfold is_digit. rewrite digit_val_byte; lia.
    - unfold dec_value; cbn [fold_left]. rewrite digit_val_byte; lia.
    - lia. }
  pose proof int_room as Room.
  induction n as [|n IH]; intros i wid acc Hi Hw Hlo; rewrite itoa_loop_S by lia;
    replace (1 <? wid) with false by (symmetry; apply Z.ltb_ge; lia);
    rewrite orb_false_r.
  - change (10 ^ Z.of_nat 1) with 10 in Hi.
    replace (10 <=? i) with false by (symmetry; apply Z.leb_gt; lia).
    apply One; lia.
  - destruct (Z.leb_spec 10 i) as [Hge | Hlt]; [|apply One; lia].
    destruct (@quot10_bounds i ltac:(lia)) as [Hq Hr].
    assert (1 <= Z.quot i 10) as Hq1
      by (apply Z.quot_le_lower_bound; lia).
    set (q := Z.quot i 10) in *.
    destruct (IH q (wid - 1) (byte_of_Z (48 + i - q * 10) :: acc))
      as (d & Hd & Hf & Hv & Hone & Hlead).
    + split; [lia|]. apply quot10_lt_pow; [lia|].
      replace (Z.of_nat (S n) + 1) with (Z.of_nat (S (S n))) by lia. lia.
    + lia.
    + lia.
    + exists (d ++ [byte_of_Z (48 + i - q * 10)]).
      replace (48 + i - q * 10) with (48 + (i - q * 10)) in * by lia.
      repeat split.
      * rewrite Hd, <- app_assoc. reflexivity.
      * apply Forall_app; split; [assumption|].
        constructor; [|constructor]. unfold is_digit. rewrite digit_val_byte; lia.
      * rewrite dec_value_snoc, Hv, digit_val_byte; lia.
      * lia.
      * intros _. destruct (Z_lt_le_dec q 10) as [Hs | Hb].
        -- rewrite (Hone Hs). cbn [hd app]. rewrite digit_val_byte; lia.
        -- specialize (Hlead Hb).
           destruct d as [|c d]; [exfalso; apply Hlead; reflexivity | exact Hlead].
Qed.

(** [itoa] on a machine integer and a width of at most twenty columns
    (and at least twenty above the smallest integer, so that [wid--] does
    not wrap) never panics: it appends [digits] to the buffer. *)
Lemma itoa_digits_fit (buf : bytes) (i wid : Z) :
  i < 10 ^ 20 -> int_min + 20 <= wid <= 20 ->
  itoa buf i wid = Some (buf ++ digits i wid).
Proof.
  intros Hi Hw. pose proof int_room as Room. unfold itoa, digits.
  destruct (itoa_loop_some 19 i wid []) as [d Hd];
    [exact Hi | simpl; lia | simpl Z.of_nat; lia |].
  rewrite Hd. reflexivity.
Qed.

Lemma itoa_digits (buf : bytes) (i wid : Z) :
  i <= int_max -> int_min + 20 <= wid <= 20 ->
  itoa buf i wid = Some (buf ++ digits i wid).
Proof.
  intros Hi Hw. apply itoa_digits_fit; [|exact Hw].
  unfold int_max in Hi.
  assert (2 ^ 63 - 1 < 10 ^ 20) by (vm_compute; reflexivity). lia.
Qed.

Lemma itoa_digits_int (buf : bytes) (i : int) (wid : Z) :
  int_min + 20 <= wid <= 20 -> itoa buf i wid = Some (buf ++ digits i wid).
Proof. intros. apply itoa_digits; [apply int_bounds | assumption]. Qed.

Lemma quot_int_max (i : int) (d : Z) : 0 < d -> Z.quot i d <= int_max.
Proof.
  intros Hd. pose proof (int_bounds i) as [_ B].
  destruct (Z_lt_le_dec i 0) as [Hneg | Hpos].
  - pose proof (Z.quot_opp_l i d ltac:(lia)).
    pose proof (Z.quot_pos (- i) d ltac:(lia) ltac:(lia)).
    unfold int_max in *. lia.
  - pose proof (Z.quot_le_upper_bound i d int_max Hd) as H.
    apply H. unfold int_max in *. nia.
Qed.

(** ** itoa: the array of twenty bytes *)

Lemma itoa_loop_overrun (n : nat) : forall (i wid : Z) (acc : bytes),
  Z.of_nat n < wid <= int_max -> itoa_loop n i wid acc = None.
Proof.
  pose proof int_room as Room.
  induction n as [|n IH]; intros i wid acc H; [reflexivity|].
  rewrite itoa_loop_S by lia.
  replace (1 <? wid) with true by (symmetry; apply Z.ltb_lt; lia).
  rewrite orb_true_r. apply IH. lia.
Qed.

(** [itoa] on machine integers [i] and [wid].  For a width at least twenty
    above the smallest integer it returns exactly when the width is at most
    20, the size of its array; it then leaves the bytes already in the
    buffer as they are and appends [digits].  With a larger width it panics
    on the array index.  At the smallest integer itself [wid--] wraps
    around to the largest: with [i] from ten on the loop then runs off the
    array and [itoa] panics too. *)
Theorem itoa_returns_up_to_20_columns (buf : bytes) (i wid : int) :
  (int_min + 20 <= wid ->
     itoa buf i wid = if wid <=? 20 then Some (buf ++ digits i wid) else None)
  /\ (intval wid = int_min -> 10 <= i -> itoa buf i wid = None)
  /\ (intval wid = int_min -> i < 10 -> itoa buf i wid = Some (buf ++ [byte_of_Z (48 + i)])).
Proof.
  pose proof int_room as Room. pose proof (int_bounds wid) as Bw.
  split; [|split].
  - intros Hlo. destruct (Z.leb_spec wid 20) as [H | H].
    + apply itoa_digits_int. lia.
    + unfold itoa. rewrite itoa_loop_overrun by (simpl Z.of_nat; lia). reflexivity.
  - intros Hw Hi. unfold itoa. change 20%nat with (S 19).
    rewrite itoa_loop_wraps.
    replace (10 <=? i) with true by (symmetry; apply Z.leb_le; lia).
    cbn [orb]. rewrite Hw.
    replace (wrap (int_min - 1)) with int_max by (vm_compute; reflexivity).
    rewrite itoa_loop_overrun by (simpl Z.of_nat; lia). reflexivity.
  - intros Hw Hi. unfold itoa. change 20%nat with (S 19).
    rewrite itoa_loop_wraps.
    replace (10 <=? i) with false by (symmetry; apply Z.leb_gt; lia).
    replace (1 <? wid) with false by (symmetry; apply Z.ltb_ge; lia).
    reflexivity.
Qed.

(** Widths 4 and 21, and the smallest integer as a width. *)
Lemma itoa_returns_up_to_20_columns_witness :
  itoa [] (int_of 2009) (int_of 4) = Some (bytes_of "2009")
  /\ itoa [] (int_of 2009) (int_of 21) = None
  /\ itoa [] (int_of 10) (int_of int_min) = None
  /\ itoa [] (int_of 9) (int_of int_min) = Some (bytes_of "9").
Proof.
  destruct (itoa_returns_up_to_20_columns [] (int_of 2009) (int_of 4)) as (A & _).
  destruct (itoa_returns_up_to_20_columns [] (int_of 2009) (int_of 21)) as (B & _).
  destruct (itoa_returns_up_to_20_columns [] (int_of 10) (int_of int_min))
    as (_ & C & _).
  destruct (itoa_returns_up_to_20_columns [] (int_of 9) (int_of int_min))
    as (_ & _ & D).
  split; [exact (A ltac:(vm_compute; discriminate))|].
  split; [exact (B ltac:(vm_compute; discriminate))|].
  split; [exact (C eq_refl ltac:(vm_compute; discriminate))|].
  exact (D eq_refl eq_refl).
Defined.

Lemma itoa_loop_decimal (n : nat) : forall (i wid : Z) (acc : bytes),
  0 <= i < 10 ^ Z.of_nat (S n) -> wid <= Z.of_nat (S n) ->
  int_min + Z.of_nat (S n) <= wid <= int_max ->
  exists d, itoa_loop (S n) i wid acc = Some (d ++ acc) /\
            Forall is_digit d /\ dec_value d = i /\ wid <= blen d /\ 1 <= blen d.
Proof.
  assert (forall i wid acc, 0 <= i < 10 -> wid <= 1 ->
            exists d, Some (byte_of_Z (48 + i) :: acc) = Some (d ++ acc) /\
              Forall is_digit d /\ dec_value d = i /\ wid <= blen d /\ 1 <= blen d)
    as One.
  { intros i wid acc Hi Hw. exists [byte_of_Z (48 + i)]. repeat split.
    - constructor; [|constructor]. unfold is_digit. rewrite digit_val_byte; lia.
    - unfold dec_value; cbn [fold_left]. rewrite digit_val_byte; lia.
    - unfold blen; simpl List.length; lia.
    - unfold blen; simpl List.length; lia. }
  induction n as [|n IH]; intros i wid acc Hi Hw Hrange; rewrite itoa_loop_S by lia.
  - change (10 ^ Z.of_nat 1) with 10 in Hi.
    replace (10 <=? i) with false by (symmetry; apply Z.leb_gt; lia).
    replace (1 <? wid) with false by (symmetry; apply Z.ltb_ge; lia).
    apply One; lia.
  - destruct ((10 <=? i) || (1 <? wid)) eqn:C.
    + destruct (quot10_bounds i ltac:(lia)) as [Hq Hr].
      set (q := Z.quot i 10) in *.
      destruct (IH q (wid - 1) (byte_of_Z (48 + i - q * 10) :: acc))
        as (d & Hd & Hf & Hv & Hl & _).
      * split; [lia|]. apply quot10_lt_pow; [lia|].
        replace (Z.of_nat (S n) + 1) with (Z.of_nat (S (S n))) by lia. lia.
      * lia.
      * lia.
      * exists (d ++ [byte_of_Z (48 + i - q * 10)]).
        replace (48 + i - q * 10) with (48 + (i - q * 10)) in * by lia.
        assert (blen (d ++ [byte_of_Z (48 + (i - q * 10))]) = blen d + 1) as L
          by (rewrite blen_app; reflexivity).
        assert (0 <= blen d) by (unfold blen; lia).
        repeat split.
        -- rewrite Hd, <- app_assoc. reflexivity.
        -- apply Forall_app; split; [assumption|].
           constructor; [|constructor]. unfold is_digit. rewrite digit_val_byte; lia.
        -- rewrite dec_value_snoc, Hv, digit_val_byte; lia.
        -- lia.
        -- lia.
    + apply orb_false_elim in C. destruct C as [C1 C2].
      apply Z.leb_gt in C1. apply Z.ltb_ge in C2. apply One; lia.
Qed.

(** What [itoa] appends for a machine integer that is not negative, in a
    width of at most 20 and at least twenty above the smallest integer
    (below that [wid--] can wrap, see above), reads back as that integer:
    decimal digits only, at least one and at least [wid] of them, whose
    value is [i]. *)
Theorem itoa_reads_back (buf : bytes) (i : int) (wid : Z) :
  0 <= i -> int_min + 20 <= wid <= 20 ->
  exists d, itoa buf i wid = Some (buf ++ d)
            /\ Forall is_digit d /\ dec_value d = i
            /\ wid <= blen d /\ 1 <= blen d.
Proof.
  intros H0 Hw. pose proof int_room as Room. unfold itoa.
  destruct (itoa_loop_decimal 19 i wid []) as (d & Hd & R).
  - split; [exact H0|]. pose proof (int_bounds i) as [_ B]. unfold int_max in B.
    assert (2 ^ 63 - 1 < 10 ^ Z.of_nat 20) by (vm_compute; reflexivity). lia.
  - simpl. lia.
  - simpl Z.of_nat. lia.
  - exists d. rewrite Hd, app_nil_r. split; [reflexivity | exact R].
Qed.

Lemma itoa_reads_back_witness :
  exists d, itoa (bytes_of "line ") (int_of 2009) 6 = Some (bytes_of "line " ++ d)
            /\ Forall is_digit d /\ dec_value d = int_of 2009
            /\ 6 <= blen d /\ 1 <= blen d.
Proof.
  apply (itoa_reads_back (bytes_of "line ") (int_of 2009) 6);
    [vm_compute; discriminate | unfold int_min; lia].
Defined.

(** [itoa] writes no sign.  Without padding a negative number is rendered
    as the one byte ['0' + i], which for [i] from -48 on lies below ['0']
    and is no digit. *)
Theorem itoa_negative_unsigned (buf : bytes) (i wid : Z) :
  i < 0 -> wid <= 1 ->
  itoa buf i wid = Some (buf ++ [byte_of_Z (48 + i)])
  /\ (-48 <= i -> digit_val (byte_of_Z (48 + i)) = i
                  /\ ~ is_digit (byte_of_Z (48 + i))).
Proof.
  intros Hi Hw. split.
  - unfold itoa. change 20%nat with (S 19). rewrite itoa_loop_wraps.
    replace (10 <=? i) with false by (symmetry; apply Z.leb_gt; lia).
    replace (1 <? wid) with false by (symmetry; apply Z.ltb_ge; lia).
    reflexivity.
  - intros Hlo.
    assert (digit_val (byte_of_Z (48 + i)) = i) as E.
    { unfold digit_val, byte_of_Z.
      rewrite Z.mod_small by lia.
      rewrite N_ascii_embedding by lia. lia. }
    split; [exact E|]. unfold is_digit. rewrite E. lia.
Qed.

Lemma itoa_negative_unsigned_witness :
  itoa [] (-5) (-1) = Some ([] ++ [byte_of_Z (48 + -5)])
  /\ digit_val (byte_of_Z (48 + -5)) = -5
  /\ ~ is_digit (byte_of_Z (48 + -5)).
Proof.
  destruct (itoa_negative_unsigned [] (-5) (-1) ltac:(lia) ltac:(lia)) as [H1 H2].
  split; [exact H1 | apply H2; lia].
Defined.

Section LogFacts.

Context {rt : GoRuntime} {ld : LevelDecls}.

(** ** formatHeader never panics *)

Lemma short_loop_some (file : string) (i : nat) :
  Z.of_nat i < len file \/ i = O -> exists f, short_loop file i = Some f.
Proof.
  induction i as [|i IH]; intros H; [simpl; eauto|].
  destruct H as [H | H]; [|discriminate].
  destruct (@index_in_range file (Z.of_nat (S i)) ltac:(lia)) as [c Hc].
  cbn [short_loop]. rewrite Hc. cbn [and_then].
  destruct (Ascii.eqb c slash); [eauto|]. apply IH. lia.
Qed.

Lemma formatHeader_level_app (l : Logger) (level : Level) (buf : bytes) :
  formatHeader_level l level buf = buf ++ level_segment l level.
Proof.
  unfold level_segment, formatHeader_level.
  destruct (has (flag l) LLevel).
  - rewrite <- app_assoc. reflexivity.
  - rewrite app_nil_r. reflexivity.
Qed.

Ltac run_itoa :=
  cbn [and_then];
  repeat (first [ rewrite itoa_digits_int by (unfold int_min; lia)
                | rewrite itoa_digits
                    by (first [apply quot_int_max; lia | unfold int_min; lia]) ];
          cbn [and_then]).

Ltac appended :=
  first [ exists []; intros; rewrite app_nil_r; reflexivity
        | eexists; intros; run_itoa; rewrite <- ?app_assoc; reflexivity ].

Lemma formatHeader_time_total (l : Logger) (t : Time) :
  exists d, forall buf, formatHeader_time l t buf = Some (buf ++ d).
Proof.
  unfold formatHeader_time.
  destruct (has (flag l) (Z.lor (Z.lor Ldate Ltime) Lmicroseconds)); [|appended].
  set (t' := if has (flag l) LUTC then Time_UTC t else t).
  unfold Time_Date, Time_Clock.
  destruct (has (flag l) Ldate), (has (flag l) (Z.lor Ltime Lmicroseconds)),
    (has (flag l) Lmicroseconds); appended.
Qed.

Lemma formatHeader_file_total (l : Logger) (file : string) (line : int) :
  exists d, forall buf, formatHeader_file l file line buf = Some (buf ++ d).
Proof.
  unfold formatHeader_file.
  destruct (has (flag l) (Z.lor Lshortfile Llongfile)); [|appended].
  destruct (has (flag l) Lshortfile); [|appended].
  destruct (@short_loop_some file (Z.to_nat (len file - 1))) as [f Hf].
  { unfold len. lia. }
  rewrite Hf. appended.
Qed.

Lemma formatHeader_time_app (l : Logger) (t : Time) (buf : bytes) :
  formatHeader_time l t buf = Some (buf ++ time_segment l t).
Proof.
  destruct (formatHeader_time_total l t) as [d Hd].
  unfold time_segment. rewrite (Hd []), Hd. reflexivity.
Qed.

Lemma formatHeader_file_app (l : Logger) (file : string) (line : int) (buf : bytes) :
  formatHeader_file l file line buf = Some (buf ++ file_segment l file line).
Proof.
  destruct (formatHeader_file_total l file line) as [d Hd].
  unfold file_segment. rewrite (Hd []), Hd. reflexivity.
Qed.

(** [formatHeader] never panics: it appends [header] to the buffer. *)
Lemma formatHeader_app (l : Logger) (buf : bytes) (t : Time) (file : string)
    (line : int) (level : Level) :
  formatHeader l buf t file line level = Some (buf ++ header l t file line level).
Proof.
  unfold formatHeader, header.
  rewrite formatHeader_level_app, formatHeader_time_app. cbn [and_then].
  rewrite formatHeader_file_app, <- !app_assoc. reflexivity.
Qed.

(** ** What Output writes *)

(** One step of a method. *)
Lemma bind_returned {A B} {m : M A} (k : A -> M B) {st st' : State} {a : A} :
  m st = (Returned a, st') -> bind m k st = k a st'.
Proof. intros H. unfold bind. rewrite H. reflexivity. Qed.

Lemma bind_ret {A B} (a : A) (k : A -> M B) (st : State) :
  bind (ret a) k st = k a st.
Proof. reflexivity. Qed.

Lemma bind_assoc {A B C} (m : M A) (f : A -> M B) (k : B -> M C) (st : State) :
  bind (bind m f) k st = bind m (fun a => bind (f a) k) st.
Proof. unfold bind. destruct (m st) as [[a | v | c] st']; reflexivity. Qed.

Lemma bind_get_logger {B} (k : Logger -> M B) (st : State) :
  bind get_logger k st = k (logger st) st.
Proof. reflexivity. Qed.

Lemma bind_update_logger {B} (f : Logger -> Logger) (k : unit -> M B) (st : State) :
  bind (update_logger f) k st = k tt (mkState (f (logger st)) (world st) (trace st)).
Proof. reflexivity. Qed.

Lemma bind_append {B} (p : bytes) (k : unit -> M B) (st : State) :
  bind (append p) k st =
  k tt (mkState (with_buf (buf (logger st) ++ p) (logger st)) (world st) (trace st)).
Proof. reflexivity. Qed.

Lemma bind_checked {A B} (a : A) (k : A -> M B) (st : State) :
  bind (checked (Some a)) k st = k a st.
Proof. reflexivity. Qed.

Lemma len_zero (s : string) : len s = 0 -> s = "".
Proof. destruct s; [reflexivity | unfold len; simpl; lia]. Qed.

Lemma bytes_of_nonempty (s : string) : 0 < len s -> bytes_of s <> [].
Proof. destruct s; [unfold len; simpl; lia | discriminate]. Qed.

(** The test [len(s) > 0 && s[len(s)-1] == '\n']. *)
Lemma newline_test (s : string) (st : State) :
  (if 0 <? len s
   then bind (checked (index s (len s - 1))) (fun c => ret (Ascii.eqb c nl))
   else ret false) st
  = (Returned (ends_nl (bytes_of s)), st).
Proof.
  destruct (Z.ltb_spec 0 (len s)) as [H | H].
  - pose proof (bytes_of_nonempty s H) as Hne.
    rewrite index_bindex, <- bytes_of_length.
    rewrite (bindex_last _ " "%char Hne), bind_checked.
    unfold ends_nl. destruct (bytes_of s); [congruence | reflexivity].
  - assert (len s = 0) as Hz by (unfold len in *; lia).
    rewrite (len_zero _ Hz). reflexivity.
Qed.

(** The test [len(l.buf) == 0 || l.buf[len(l.buf)-1] != '\n']. *)
Lemma open_test (b : bytes) (st : State) :
  (if blen b =? 0 then ret true
   else bind (checked (bindex b (blen b - 1)))
             (fun c => ret (negb (Ascii.eqb c nl)))) st
  = (Returned (negb (ends_nl b)), st).
Proof.
  destruct (Z.eqb_spec (blen b) 0) as [H | H].
  - apply blen_zero in H. subst b. reflexivity.
  - assert (b <> []) as Hne by (intros ->; apply H; reflexivity).
    rewrite (bindex_last b " "%char Hne), bind_checked.
    unfold ends_nl. destruct b; [congruence | reflexivity].
Qed.

Lemma stripped_length (s : string) :
  blen (stripped s) = if ends_nl (bytes_of s) then len s - 1 else len s.
Proof.
  unfold stripped. destruct (ends_nl (bytes_of s)) eqn:E.
  - rewrite <- bytes_of_length. unfold blen.
    destruct (bytes_of s) as [|c b] eqn:Eb; [discriminate|].
    rewrite removelast_firstn_len, length_firstn. simpl List.length. lia.
  - apply bytes_of_length.
Qed.

Lemma content_prefix_step (st : State) :
  (if 0 <? len (contentPrefix (logger st))
   then append (bytes_of (contentPrefix (logger st))) else ret tt) st
  = (Returned tt,
     mkState (with_buf (buf (logger st) ++ bytes_of (contentPrefix (logger st)))
                       (logger st)) (world st) (trace st)).
Proof.
  destruct (Z.ltb_spec 0 (len (contentPrefix (logger st)))) as [H | H]; [reflexivity|].
  assert (len (contentPrefix (logger st)) = 0) as Hz by (unfold len in *; lia).
  rewrite (len_zero _ Hz). cbn [bytes_of list_ascii_of_string]. rewrite app_nil_r.
  destruct st as [[] ? ?]. reflexivity.
Qed.

Lemma header_with_buf (b : bytes) (l : Logger) (t : Time) (file : string)
    (line : int) (level : Level) :
  header (with_buf b l) t file line level = header l t file line level.
Proof. reflexivity. Qed.

Ltac fields := cbn [logger world trace buf with_buf contentPrefix suffix out emit].

(** From [l.buf = l.buf[:0]] to the call of [Write]. *)
Ltac run_locked :=
  rewrite bind_update_logger, bind_get_logger; fields;
  rewrite formatHeader_app, bind_checked, bind_update_logger, bind_get_logger;
  fields; cbn [app];
  match goal with |- bind _ _ ?st = _ =>
    etransitivity; [apply (bind_returned _ (content_prefix_step st)) | ] end;
  fields;
  rewrite (bind_returned _ (newline_test _ _));
  unfold terminated, assembled, padded_suffix;
  rewrite stripped_length; unfold stripped;
  destruct (ends_nl (bytes_of _));
  rewrite bind_assoc, bind_append, bind_ret, bind_get_logger; fields;
  rewrite ?slice_to_removelast;
  (destruct (0 <? len (suffix _));
   [ rewrite bind_assoc; destruct (_ <? MaxContextLen);
     [ rewrite !bind_append | rewrite bind_ret, bind_append ]
   | rewrite bind_ret ]);
  rewrite bind_get_logger; fields;
  rewrite (bind_returned _ (open_test _ _));
  rewrite <- ?app_assoc; cbn [app]; rewrite ?app_nil_r;
  (destruct (ends_nl _); cbn [negb];
   [ rewrite bind_ret | rewrite bind_append ]);
  rewrite bind_get_logger; unfold Write; fields;
  rewrite ?header_with_buf, <- ?app_assoc; cbn [app];
  match goal with |- context [out ?l ?p ?w] =>
    destruct (out l p w) as [[? ?] ?] end;
  unfold emit; fields; rewrite <- ?app_assoc; reflexivity.

Lemma Output_run (calldepth : int) (s : string) (level : Level) (st : State) :
  Output calldepth s level st = Output_result calldepth s level st.
Proof.
  unfold Output, Output_result, located.
  unfold bind at 1. unfold now.
  destruct (time_Now (world st)) as [t w1].
  rewrite bind_get_logger.
  destruct st as [l w tr]. fields.
  destruct (has (flag l) (Z.lor Lshortfile Llongfile)).
  - unfold bind at 1. unfold bind at 1. unfold caller. fields.
    destruct (runtime_Caller calldepth w1) as [[[file line]|] w2]; unfold ret at 1.
    + run_locked.
    + run_locked.
  - rewrite bind_ret. run_locked.
Qed.

(** ** One call to Output *)

Lemma writes_app (a b : list Event) : writes (a ++ b) = writes a ++ writes b.
Proof. unfold writes. apply flat_map_app. Qed.

(** [Output] returns; it makes the calls [time.Now], then [runtime.Caller]
    if a file flag is set, then [Write] on the assembled line, which is the
    last thing it does; its result is the error of that [Write]. *)
Lemma Output_shape (calldepth : int) (s : string) (level : Level) (st : State) :
  let p := Output_line calldepth s level st in
  let r := out (logger st) p (world_at_write calldepth st) in
  exists evs,
    Output calldepth s level st
    = (Returned (snd (fst r)),
       mkState (with_buf p (logger st)) (snd r)
               (trace st ++ EvNow :: evs ++ [EvWrite p]))
    /\ writes evs = []
    /\ evs = (if has (flag (logger st)) (Z.lor Lshortfile Llongfile)
              then [EvCaller calldepth] else []).
Proof.
  cbv zeta. rewrite Output_run.
  unfold Output_result, Output_line, world_at_write, call_header, call_site, call_time.
  destruct (time_Now (world st)) as [t w1]. cbn [fst snd].
  unfold located.
  destruct (has (flag (logger st)) (Z.lor Lshortfile Llongfile)).
  - destruct (runtime_Caller calldepth w1) as [r w2].
    exists [EvCaller calldepth]. cbn [fst snd].
    destruct r as [[file line]|]; cbn [fst snd];
      match goal with |- context [out ?l ?p ?w] =>
        destruct (out l p w) as [[n err] w3] end; auto.
  - exists []. cbn [fst snd].
    match goal with |- context [out ?l ?p ?w] =>
      destruct (out l p w) as [[n err] w3] end; auto.
Qed.

(** ** The gated methods *)

Lemma gated_method_run (g : Gated) (sty : Style) (format : string) (v : list Value)
    (st : State) :
  gated_method g sty format v st =
  if level (logger st) >=? gate g then
    (Returned tt,
     snd (Output (callDepth (logger st)) (gated_message sty format v) (gate g)
                 (emit (EvFormat (gated_message sty format v)) st)))
  else (Returned tt, st).
Proof.
  assert (forall L m,
    bind get_logger (fun l =>
      if level l >=? L
      then bind (formatted m) (fun s => bind (Output (callDepth l) s L) (fun _ => ret tt))
      else ret tt) st
    = if level (logger st) >=? L
      then (Returned tt,
            snd (Output (callDepth (logger st)) m L (emit (EvFormat m) st)))
      else (Returned tt, st)) as Body.
  { intros L m. rewrite bind_get_logger.
    destruct (level (logger st) >=? L); [|reflexivity].
    unfold bind at 1. unfold formatted.
    destruct (Output_shape (callDepth (logger st)) m L (emit (EvFormat m) st))
      as (evs & E & _).
    cbv zeta in E. unfold bind. rewrite E. reflexivity. }
  destruct g, sty; apply Body.
Qed.



(** ** Panic and Fatal *)

Lemma log_then_end (lv : Level) (msg : string) (e : Outcome unit) (m : M unit)
    (st : State) :
  m st = bind (Output (callDepth (logger st)) msg lv) (fun _ _st => (e, _st))
              (emit (EvFormat msg) st) ->
  logs_then_ends m msg lv e st.
Proof.
  intros Hm. unfold logs_then_ends.
  destruct (Output_shape (callDepth (logger st)) msg lv (emit (EvFormat msg) st))
    as (evs & E & W & _).
  cbv zeta in E. rewrite Hm. unfold bind. rewrite E. cbn [snd trace emit].
  split; [reflexivity|].
  eexists; exists (EvNow :: evs). split.
  - rewrite <- app_assoc. reflexivity.
  - exact W.
Qed.

(** C2. Whatever the configured level, Panic, Panicf and Panicln call
    Output and then panic with exactly the formatted message; Fatal, Fatalf
    and Fatalln call Output and then exit with status 1.  The write is the
    last call made before the method ends. *)
Theorem C2_panic_fatal_always_log (format : string) (v : list Value) (st : State) :
  logs_then_ends (Panic v) (fmt_Sprint v) PanicLevel
                 (Panicked (PanicString (fmt_Sprint v))) st
  /\ logs_then_ends (Panicf format v) (fmt_Sprintf format v) PanicLevel
                    (Panicked (PanicString (fmt_Sprintf format v))) st
  /\ logs_then_ends (Panicln v) (fmt_Sprintln v) PanicLevel
                    (Panicked (PanicString (fmt_Sprintln v))) st
  /\ logs_then_ends (Fatal v) (fmt_Sprint v) FatalLevel (Exited 1) st
  /\ logs_then_ends (Fatalf format v) (fmt_Sprintf format v) FatalLevel (Exited 1) st
  /\ logs_then_ends (Fatalln v) (fmt_Sprintln v) FatalLevel (Exited 1) st.
Proof.
  repeat match goal with |- logs_then_ends _ _ _ _ _ /\ _ => split end;
    apply log_then_end; reflexivity.
Qed.

(** ** One write per call *)

(** Every call to [Output] writes once, the line [Output_line], and returns
    the error of that write. *)
Lemma Output_once (calldepth : int) (s : string) (level : Level) (st : State) :
  let p := Output_line calldepth s level st in
  let r := out (logger st) p (world_at_write calldepth st) in
  let st' := snd (Output calldepth s level st) in
  fst (Output calldepth s level st) = Returned (snd (fst r))
  /\ world st' = snd r
  /\ writes (trace st') = writes (trace st) ++ [p]
  /\ (exists evs, trace st' = trace st ++ evs ++ [EvWrite p] /\ writes evs = [])
  /\ (forall b,
        let st0 := mkState (with_buf b (logger st)) (world st) (trace st) in
        Output_line calldepth s level st0 = p
        /\ fst (Output calldepth s level st0) = fst (Output calldepth s level st)
        /\ trace (snd (Output calldepth s level st0)) = trace st').
Proof.
  cbv zeta.
  destruct (Output_shape calldepth s level st) as (evs & E & W & V).
  cbv zeta in E. rewrite E. cbn [fst snd world trace].
  repeat split.
  - rewrite writes_app. cbn [writes flat_map]. fold (writes (evs ++ [EvWrite (Output_line calldepth s level st)])).
    rewrite writes_app, W. reflexivity.
  - exists (EvNow :: evs). split; [reflexivity | exact W].
  - destruct (Output_shape calldepth s level
                (mkState (with_buf b (logger st)) (world st) (trace st)))
      as (evs0 & E0 & _ & _).
    cbv zeta in E0. rewrite E0. reflexivity.
  - destruct (Output_shape calldepth s level
                (mkState (with_buf b (logger st)) (world st) (trace st)))
      as (evs0 & E0 & _ & V0).
    cbv zeta in E0. rewrite E0. cbn [snd trace logger flag with_buf] in *.
    rewrite V0, V. reflexivity.
Qed.

(** C8. Every call to Output returns, having called Write exactly once, as
    the last of its calls, on the assembled line; its result is the error
    that call returned (nil when the write succeeds), whether the write
    failed or not; nothing an earlier call left in the buffer is written. *)
Theorem C8_single_write (calldepth : int) (s : string) (level : Level) (st : State) :
  let p := Output_line calldepth s level st in
  let r := out (logger st) p (world_at_write calldepth st) in
  let st' := snd (Output calldepth s level st) in
  fst (Output calldepth s level st) = Returned (snd (fst r))
  /\ world st' = snd r
  /\ writes (trace st') = writes (trace st) ++ [p]
  /\ (exists evs, trace st' = trace st ++ evs ++ [EvWrite p] /\ writes evs = [])
  /\ (forall b,
        let st0 := mkState (with_buf b (logger st)) (world st) (trace st) in
        Output_line calldepth s level st0 = p
        /\ fst (Output calldepth s level st0) = fst (Output calldepth s level st)
        /\ trace (snd (Output calldepth s level st0)) = trace st').
Proof. exact (Output_once calldepth s level st). Qed.

(** ** Setters and getters *)

(** C9. For level, flags, prefix, content prefix and suffix: the setter
    accepts every value, the getter called after it returns that value, and
    every other field of the Logger is left as it was. *)
Theorem C9_set_get (st : State) :
  set_then_get SetLevel GetLevel but_level st
  /\ set_then_get SetFlags Flags but_flag st
  /\ set_then_get SetPrefix Prefix but_prefix st
  /\ set_then_get SetContentPrefix ContentPrefix but_contentPrefix st
  /\ set_then_get SetSuffix Suffix but_suffix st.
Proof.
  repeat match goal with |- set_then_get _ _ _ _ /\ _ => split end;
    intros v; eexists; repeat split.
Qed.

(** ** The header *)

Lemma fresh_no_level (f : Z) :
  LLevel_fresh -> Z.land f declared_flags = f -> has f LLevel = false.
Proof.
  unfold LLevel_fresh, has. intros HL Hf.
  rewrite <- Hf, <- Z.land_assoc, (Z.land_comm declared_flags), HL, Z.land_0_r.
  reflexivity.
Qed.

Lemma level_segment_off (l : Logger) (level : Level) :
  has (flag l) LLevel = false -> level_segment l level = [].
Proof. intros H. unfold level_segment, formatHeader_level. rewrite H. reflexivity. Qed.

Lemma file_segment_off (l : Logger) (file : string) (line : int) :
  has (flag l) (Z.lor Lshortfile Llongfile) = false -> file_segment l file line = [].
Proof. intros H. unfold file_segment, formatHeader_file. rewrite H. reflexivity. Qed.

Lemma formatHeader_reads (l1 l2 : Logger) (buf : bytes) (t : Time) (file : string)
    (line : int) (level : Level) :
  flag l1 = flag l2 -> isTerminal l1 = isTerminal l2 -> prefix l1 = prefix l2 ->
  formatHeader l1 buf t file line level = formatHeader l2 buf t file line level.
Proof.
  intros Hf Ht Hp.
  unfold formatHeader, formatHeader_level, formatHeader_time, formatHeader_file.
  rewrite Hf, Ht, Hp. reflexivity.
Qed.

Lemma time_segment_stamp (l : Logger) (t : Time) (y mo d h mi sec : Z) :
  has (flag l) Ldate = true -> has (flag l) Ltime = true -> has (flag l) LUTC = false ->
  reads (wall t) y mo d h mi sec ->
  time_segment l t =
    digits y 4 ++ ["/"%char] ++ digits mo 2 ++ ["/"%char] ++ digits d 2 ++ [" "%char]
    ++ digits h 2 ++ [":"%char] ++ digits mi 2 ++ [":"%char] ++ digits sec 2
    ++ (if has (flag l) Lmicroseconds
        then ["."%char] ++ digits (Z.quot (nanosecond (wall t)) 1000) 6 else [])
    ++ [" "%char].
Proof.
  intros Hd Ht Hu (Ey & Emo & Ed & Eh & Emi & Es).
  assert (has (flag l) (Z.lor (Z.lor Ldate Ltime) Lmicroseconds) = true) as H1.
  { unfold has in *. rewrite !Z.land_lor_distr_r.
    destruct (Z.eqb_spec (Z.land (flag l) Ldate) 0) as [E | E]; [discriminate|].
    apply negb_true_iff, Z.eqb_neq. intros H.
    apply Z.lor_eq_0_iff in H. destruct H as [H _].
    apply Z.lor_eq_0_iff in H. tauto. }
  assert (has (flag l) (Z.lor Ltime Lmicroseconds) = true) as H2.
  { unfold has in *. rewrite !Z.land_lor_distr_r.
    destruct (Z.eqb_spec (Z.land (flag l) Ltime) 0) as [E | E]; [discriminate|].
    apply negb_true_iff, Z.eqb_neq. intros H.
    apply Z.lor_eq_0_iff in H. tauto. }
  unfold time_segment, formatHeader_time, Time_Date, Time_Clock, Time_Nanosecond.
  rewrite H1, Hd, H2, Hu.
  destruct (has (flag l) Lmicroseconds); run_itoa;
    rewrite Ey, Emo, Ed, Eh, Emi, Es, <- ?app_assoc; reflexivity.
Qed.

Lemma digits_padded (i wid : Z) :
  1 <= wid <= 20 -> 0 <= i < 10 ^ wid ->
  blen (digits i wid) = wid /\ Forall is_digit (digits i wid)
  /\ dec_value (digits i wid) = i.
Proof.
  intros Hw Hi. unfold digits.
  destruct (itoa_loop_padded 20 i wid [] Hi ltac:(simpl; lia)
              ltac:(unfold int_max; lia)) as (d & Hd & Hl & Hf & Hv).
  rewrite Hd, app_nil_r. auto.
Qed.

(** C3. The header is a function of the flags, the terminal mode and the
    prefix of the Logger and of the time, file, line and level given.  With
    the flags date|time, the clock at 2009-01-23 01:23:23 and no prefix,
    content prefix or suffix, the body "message" is written as
    "2009/01/23 01:23:23 message\n"; with date|time|microseconds and 123123
    microseconds the time segment is "2009/01/23 01:23:23.123123 ".  The
    year is rendered in 4 columns, month, day, hour, minute and second in 2
    and the microseconds in 6, and a number that fits its columns is
    rendered as exactly that many decimal digits, zero-padded. *)
Theorem C3_header_rendering :
  LLevel_fresh ->
  (forall l1 l2 buf t file line level,
      flag l1 = flag l2 -> isTerminal l1 = isTerminal l2 -> prefix l1 = prefix l2 ->
      formatHeader l1 buf t file line level = formatHeader l2 buf t file line level)
  /\ (forall st calldepth level,
        intval (flag (logger st)) = LstdFlags ->
        prefix (logger st) = "" -> contentPrefix (logger st) = "" ->
        suffix (logger st) = "" ->
        reads (wall (call_time st)) 2009 1 23 1 23 23 ->
        writes (trace (snd (Output calldepth "message" level st)))
        = writes (trace st) ++ [bytes_of "2009/01/23 01:23:23 message" ++ [nl]])
  /\ (forall l buf t file line level,
        intval (flag l) = Z.lor LstdFlags Lmicroseconds -> prefix l = "" ->
        reads (wall t) 2009 1 23 1 23 23 ->
        Z.quot (nanosecond (wall t)) 1000 = 123123 ->
        time_segment l t = bytes_of "2009/01/23 01:23:23.123123 "
        /\ formatHeader l buf t file line level
           = Some (buf ++ bytes_of "2009/01/23 01:23:23.123123 "))
  /\ (forall l t y mo d h mi sec,
        has (flag l) Ldate = true -> has (flag l) Ltime = true ->
        has (flag l) LUTC = false -> reads (wall t) y mo d h mi sec ->
        time_segment l t =
          digits y 4 ++ ["/"%char] ++ digits mo 2 ++ ["/"%char] ++ digits d 2
          ++ [" "%char]
          ++ digits h 2 ++ [":"%char] ++ digits mi 2 ++ [":"%char] ++ digits sec 2
          ++ (if has (flag l) Lmicroseconds
              then ["."%char] ++ digits (Z.quot (nanosecond (wall t)) 1000) 6 else [])
          ++ [" "%char])
  /\ (forall buf i wid,
        1 <= wid <= 20 -> 0 <= i < 10 ^ wid ->
        itoa buf i wid = Some (buf ++ digits i wid)
        /\ blen (digits i wid) = wid /\ Forall is_digit (digits i wid)
        /\ dec_value (digits i wid) = i).
Proof.
  intros Fresh.
  split; [exact formatHeader_reads|].
  split.
  { intros st calldepth level Hflag Hp Hcp Hs Ht.
    destruct (Output_once calldepth "message" level st) as (_ & _ & W & _).
    cbv zeta in W. rewrite W. do 2 f_equal.
    unfold Output_line, assembled, padded_suffix, call_header, header.
    rewrite Hp, Hcp, Hs.
    rewrite level_segment_off
      by (apply fresh_no_level; [exact Fresh | rewrite Hflag; reflexivity]).
    rewrite file_segment_off by (unfold has; rewrite Hflag; reflexivity).
    rewrite (time_segment_stamp _ _ 2009 1 23 1 23 23);
      try exact Ht; try (unfold has; rewrite Hflag; reflexivity). }
  split.
  { intros l buf t file line level Hflag Hp Ht Hns.
    assert (time_segment l t = bytes_of "2009/01/23 01:23:23.123123 ") as E.
    { rewrite (time_segment_stamp _ _ 2009 1 23 1 23 23);
        try exact Ht; try (unfold has; rewrite Hflag; reflexivity).
      unfold has. rewrite Hflag, Hns. reflexivity. }
    split; [exact E|].
    rewrite formatHeader_app. unfold header.
    rewrite Hp, E.
    rewrite level_segment_off
      by (apply fresh_no_level; [exact Fresh | rewrite Hflag; reflexivity]).
    rewrite file_segment_off by (unfold has; rewrite Hflag; reflexivity).
    change (bytes_of "") with (@nil ascii). cbn [app]. rewrite app_nil_r. reflexivity. }
  split; [exact time_segment_stamp|].
  intros buf i wid Hw Hi. split; [|apply digits_padded; assumption].
  apply itoa_digits_fit; [|unfold int_min; lia].
  assert (10 ^ wid <= 10 ^ 20) by (apply Z.pow_le_mono_r; lia). lia.
Qed.

(** ** Padding before the suffix *)

Lemma suffix_test (l : Logger) : (0 <? len (suffix l)) = negb (String.eqb (suffix l) "").
Proof. destruct (suffix l); reflexivity. Qed.

(** C5. With a suffix that is not empty, a body of logical length n (its
    length without the newline stripped) below 66 is followed by exactly
    66 - n spaces and then the suffix; from 66 on the suffix follows the
    body at once.  With an empty suffix nothing is inserted. *)
Theorem C5_padding (calldepth : int) (s : string) (lv : Level) (st : State) :
  let l := logger st in
  let h := call_header calldepth lv st in
  let body := stripped s in
  let written := writes (trace (snd (Output calldepth s lv st))) in
  blen body = (if ends_nl (bytes_of s) then len s - 1 else len s)
  /\ (suffix l <> "" -> blen body < 66 ->
        written = writes (trace st) ++
          [terminated (h ++ bytes_of (contentPrefix l) ++ body
                         ++ repeat " "%char (Z.to_nat (66 - blen body))
                         ++ bytes_of (suffix l))])
  /\ (suffix l <> "" -> 66 <= blen body ->
        written = writes (trace st) ++
          [terminated (h ++ bytes_of (contentPrefix l) ++ body ++ bytes_of (suffix l))])
  /\ (suffix l = "" ->
        written = writes (trace st) ++
          [terminated (h ++ bytes_of (contentPrefix l) ++ body)]).
Proof.
  cbv zeta.
  destruct (Output_once calldepth s lv st) as (_ & _ & W & _).
  cbv zeta in W. rewrite W. clear W.
  unfold Output_line, assembled, padded_suffix, MaxContextLen, spaces.
  rewrite suffix_test.
  split; [apply stripped_length|].
  repeat split.
  - intros Hs Hlt. apply String.eqb_neq in Hs. rewrite Hs. cbn [negb].
    replace (blen (stripped s) <? 66) with true by (symmetry; apply Z.ltb_lt; lia).
    reflexivity.
  - intros Hs Hge. apply String.eqb_neq in Hs. rewrite Hs. cbn [negb].
    replace (blen (stripped s) <? 66) with false by (symmetry; apply Z.ltb_ge; lia).
    reflexivity.
  - intros Hs. rewrite Hs. cbn [String.eqb negb]. rewrite app_nil_r. reflexivity.
Qed.

(** ** The caller that cannot be found *)

(** C7. With a file flag set and [runtime.Caller] reporting failure,
    Output takes the file "???" and the line 0, renders them as "???:0: "
    after the prefix, level and time, writes the line, and returns what
    [Write] returned: nil when the write succeeds. *)
Theorem C7_unknown_caller (calldepth : int) (s : string) (lv : Level) (st : State) :
  has (flag (logger st)) (Z.lor Lshortfile Llongfile) = true ->
  fst (runtime_Caller calldepth (snd (time_Now (world st)))) = None ->
  let l := logger st in
  let h := bytes_of (prefix l) ++ level_segment l lv ++ time_segment l (call_time st)
           ++ bytes_of "???:0: " in
  let p := terminated (assembled l h s) in
  let r := out l p (snd (runtime_Caller calldepth (snd (time_Now (world st))))) in
  call_site calldepth st = ("???", int_of 0)
  /\ call_header calldepth lv st = h
  /\ writes (trace (snd (Output calldepth s lv st))) = writes (trace st) ++ [p]
  /\ fst (Output calldepth s lv st) = Returned (snd (fst r))
  /\ (snd (fst r) = None -> fst (Output calldepth s lv st) = Returned None).
Proof.
  intros Hflag Hcaller. cbv zeta.
  assert (call_site calldepth st = ("???", int_of 0)) as Site.
  { unfold call_site, located. rewrite Hflag.
    destruct (runtime_Caller calldepth (snd (time_Now (world st)))) as [r w2].
    cbn [fst] in Hcaller. subst r. reflexivity. }
  assert (file_segment (logger st) "???" (int_of 0) = bytes_of "???:0: ") as Seg.
  { unfold file_segment, formatHeader_file. rewrite Hflag.
    destruct (has (flag (logger st)) Lshortfile); reflexivity. }
  assert (call_header calldepth lv st =
          bytes_of (prefix (logger st)) ++ level_segment (logger st) lv
          ++ time_segment (logger st) (call_time st) ++ bytes_of "???:0: ") as Hdr.
  { unfold call_header, header. rewrite Site. cbn [fst snd]. rewrite Seg. reflexivity. }
  destruct (Output_once calldepth s lv st) as (R & _ & W & _).
  cbv zeta in R, W. unfold Output_line in R, W. rewrite Hdr in R, W.
  assert (world_at_write calldepth st
          = snd (runtime_Caller calldepth (snd (time_Now (world st))))) as Ww.
  { unfold world_at_write, located. rewrite Hflag.
    destruct (runtime_Caller calldepth (snd (time_Now (world st)))); reflexivity. }
  rewrite Ww in R.
  repeat split; try assumption.
  intros Hok. rewrite R, Hok. reflexivity.
Qed.

(** ** The newline at the end of the line *)

Lemma ends_nl_snoc (x : bytes) (c : byte) : ends_nl (x ++ [c]) = Ascii.eqb c nl.
Proof.
  unfold ends_nl. rewrite last_last.
  destruct x; reflexivity.
Qed.

Lemma stripped_newline (b : string) :
  stripped (b ++ String nl "")%string = bytes_of b.
Proof.
  unfold stripped. rewrite bytes_of_app.
  change (bytes_of (String nl "")) with [nl].
  rewrite ends_nl_snoc, removelast_last. reflexivity.
Qed.

Lemma terminated_ends_nl (x : bytes) : ends_nl (terminated x) = true.
Proof.
  unfold terminated. destruct (ends_nl x) eqn:E; [exact E|].
  apply ends_nl_snoc.
Qed.

Lemma terminated_one_nl (x : bytes) :
  one_trailing_nl (terminated x) = negb (ends_nl x && ends_nl (removelast x)).
Proof.
  unfold one_trailing_nl, terminated. destruct (ends_nl x) eqn:E.
  - rewrite E. reflexivity.
  - rewrite ends_nl_snoc, removelast_last, E. reflexivity.
Qed.

Lemma ends_nl_app (x y : bytes) : y <> [] -> ends_nl (x ++ y) = ends_nl y.
Proof.
  intros Hy. rewrite (app_removelast_last " "%char Hy), app_assoc, !ends_nl_snoc.
  reflexivity.
Qed.

(** C4, as the code has it.  Output strips one trailing newline from the
    body and appends a newline exactly when the buffer assembled so far
    (header, content prefix, stripped body, padding and suffix) does not end
    in one.  The line written always ends in a newline; it ends in exactly
    one unless that buffer already ended in two.  In particular, with no
    suffix and a stripped body that is not empty and does not end in a
    newline, the line is header, content prefix, stripped body and one
    newline. *)
Theorem C4_final_newline (calldepth : int) (s : string) (lv : Level) (st : State) :
  let l := logger st in
  let h := call_header calldepth lv st in
  let x := h ++ bytes_of (contentPrefix l) ++ stripped s ++ padded_suffix l s in
  let p := Output_line calldepth s lv st in
  writes (trace (snd (Output calldepth s lv st))) = writes (trace st) ++ [p]
  /\ (forall b, s = (b ++ String nl "")%string -> stripped s = bytes_of b)
  /\ (ends_nl (bytes_of s) = false -> stripped s = bytes_of s)
  /\ (ends_nl x = false -> p = x ++ [nl])
  /\ (ends_nl x = true -> p = x)
  /\ ends_nl p = true
  /\ one_trailing_nl p = negb (ends_nl x && ends_nl (removelast x))
  /\ (suffix l = "" -> stripped s <> [] -> ends_nl (stripped s) = false ->
        p = h ++ bytes_of (contentPrefix l) ++ stripped s ++ [nl]
        /\ one_trailing_nl p = true).
Proof.
  cbv zeta.
  destruct (Output_once calldepth s lv st) as (_ & _ & W & _).
  cbv zeta in W. rewrite W. clear W.
  unfold Output_line, assembled.
  set (x := call_header calldepth lv st ++ bytes_of (contentPrefix (logger st))
            ++ stripped s ++ padded_suffix (logger st) s).
  split; [reflexivity|].
  split; [intros b ->; apply stripped_newline|].
  split; [intros E; unfold stripped; rewrite E; reflexivity|].
  split; [intros E; unfold terminated; rewrite E; reflexivity|].
  split; [intros E; unfold terminated; rewrite E; reflexivity|].
  split; [apply terminated_ends_nl|].
  split; [apply terminated_one_nl|].
  intros Hs Hne E.
  assert (padded_suffix (logger st) s = []) as P
    by (unfold padded_suffix; rewrite Hs; reflexivity).
  assert (ends_nl x = false) as Ex.
  { unfold x. rewrite P, app_nil_r, app_assoc, ends_nl_app by exact Hne. exact E. }
  split.
  - unfold terminated. rewrite Ex. unfold x. rewrite P, app_nil_r, <- !app_assoc.
    reflexivity.
  - rewrite terminated_one_nl, Ex. reflexivity.
Qed.

(** ** The short file name *)

Lemma short_loop_S (file : string) (i : nat) :
  short_loop file (S i) =
  and_then (index file (Z.of_nat (S i)))
    (fun c => if Ascii.eqb c slash then Some (slice_from file (Z.of_nat (S i) + 1))
              else short_loop file i).
Proof. reflexivity. Qed.

(** The loop stops at the last '/' that is not at index 0. *)
Lemma short_loop_found (file : string) (k : nat) : forall i : nat,
  (1 <= k <= i)%nat -> Z.of_nat i < len file ->
  index file (Z.of_nat k) = Some slash ->
  (forall j, (k < j <= i)%nat -> index file (Z.of_nat j) <> Some slash) ->
  short_loop file i = Some (slice_from file (Z.of_nat k + 1)).
Proof.
  induction i as [|i IH]; intros Hk Hi Hs Hno; [lia|].
  rewrite short_loop_S.
  destruct (index_in_range file (Z.of_nat (S i)) ltac:(lia)) as [c Hc].
  rewrite Hc. cbn [and_then].
  destruct (Nat.eq_dec k (S i)) as [-> | Hne].
  - rewrite Hs in Hc. injection Hc as <-. rewrite Ascii.eqb_refl. reflexivity.
  - destruct (Ascii.eqb_spec c slash) as [-> | Hcs].
    + exfalso. apply (Hno (S i)); [lia | exact Hc].
    + apply IH; [lia | lia | exact Hs |]. intros j Hj. apply Hno. lia.
Qed.

(** Without a '/' from index 1 on, the whole path stays. *)
Lemma short_loop_kept (file : string) : forall i : nat,
  Z.of_nat i < len file \/ i = O ->
  (forall j, (1 <= j <= i)%nat -> index file (Z.of_nat j) <> Some slash) ->
  short_loop file i = Some file.
Proof.
  induction i as [|i IH]; intros Hi Hno; [reflexivity|].
  destruct Hi as [Hi | Hi]; [|discriminate].
  rewrite short_loop_S.
  destruct (index_in_range file (Z.of_nat (S i)) ltac:(lia)) as [c Hc].
  rewrite Hc. cbn [and_then].
  destruct (Ascii.eqb_spec c slash) as [-> | Hcs].
  - exfalso. apply (Hno (S i)); [lia | exact Hc].
  - apply IH; [left; lia|]. intros j Hj. apply Hno. lia.
Qed.

Lemma index_app_right (a b : string) (j : nat) :
  index (a ++ b)%string (len a + Z.of_nat j) = nth_error (bytes_of b) j.
Proof.
  rewrite index_bindex, bytes_of_app. unfold bindex.
  rewrite blen_app, !bytes_of_length.
  pose proof (bytes_of_length a) as La. unfold blen, len in La.
  destruct (Z.ltb_spec (len a + Z.of_nat j) (len a + len b)) as [H | H].
  - replace (0 <=? len a + Z.of_nat j) with true
      by (symmetry; apply Z.leb_le; unfold len; lia).
    cbn [andb]. rewrite nth_error_app2 by (unfold len; lia).
    f_equal. unfold len. lia.
  - rewrite andb_false_r. symmetry. apply nth_error_None.
    pose proof (bytes_of_length b) as Lb. unfold blen, len in *. lia.
Qed.

(** Of a path [dir/base] whose directory part is not empty and whose last
    element has no '/', the short-file flag keeps the last element. *)
Lemma short_loop_base (dir base : string) :
  dir <> "" -> ~ In slash (bytes_of base) ->
  let file := (dir ++ String slash base)%string in
  short_loop file (Z.to_nat (len file - 1)) = Some base.
Proof.
  intros Hd Hb. cbv zeta.
  set (file := (dir ++ String slash base)%string).
  assert (len file = len dir + 1 + len base) as Lf.
  { unfold file. rewrite <- !bytes_of_length, bytes_of_app, blen_app.
    unfold blen. simpl List.length. lia. }
  assert (0 < len dir) as Ld by (destruct dir; [congruence | unfold len; simpl; lia]).
  assert (0 <= len base) as Lb by (unfold len; lia).
  rewrite (short_loop_found file (Z.to_nat (len dir))).
  - f_equal. apply bytes_of_inj. unfold slice_from.
    rewrite bytes_of_substring. unfold file. rewrite bytes_of_app.
    pose proof (bytes_of_length dir) as Bd. unfold blen in Bd.
    replace (Z.to_nat (Z.of_nat (Z.to_nat (len dir)) + 1))
      with (List.length (bytes_of dir) + 1)%nat by lia.
    rewrite skipn_app, skipn_all2 by lia.
    replace (List.length (bytes_of dir) + 1 - List.length (bytes_of dir))%nat
      with 1%nat by lia.
    cbn [app bytes_of list_ascii_of_string skipn].
    apply firstn_all2.
    pose proof (bytes_of_length base) as Bb. unfold blen in Bb.
    fold (bytes_of base). fold file. unfold len in *. lia.
  - lia.
  - lia.
  - replace (Z.of_nat (Z.to_nat (len dir))) with (len dir + Z.of_nat 0) by lia.
    unfold file. rewrite index_app_right. reflexivity.
  - intros j Hj E.
    replace (Z.of_nat j) with (len dir + Z.of_nat (j - Z.to_nat (len dir))) in E by lia.
    unfold file in E. rewrite index_app_right in E.
    destruct (j - Z.to_nat (len dir))%nat as [|m] eqn:Em; [lia|].
    cbn [bytes_of list_ascii_of_string nth_error] in E.
    apply Hb. eapply nth_error_In. exact E.
Qed.

(** Of a path [/base] the short-file flag keeps the '/': index 0 is never
    looked at. *)
Lemma short_loop_root (base : string) :
  ~ In slash (bytes_of base) ->
  let file := String slash base in
  short_loop file (Z.to_nat (len file - 1)) = Some file.
Proof.
  intros Hb. cbv zeta. apply short_loop_kept.
  - unfold len. simpl String.length. lia.
  - intros j Hj E.
    change (String slash base) with ("" ++ String slash base)%string in E.
    replace (Z.of_nat j) with (len "" + Z.of_nat j) in E by (unfold len; simpl; lia).
    rewrite index_app_right in E.
    destruct j as [|m]; [lia|].
    cbn [bytes_of list_ascii_of_string nth_error] in E.
    apply Hb. eapply nth_error_In. exact E.
Qed.

(** A line number is rendered without padding: all its decimal digits and
    no leading zero. *)
Lemma line_digits_minimal (line : int) :
  0 <= line ->
  Forall is_digit (digits line (-1)) /\ dec_value (digits line (-1)) = line
  /\ (line < 10 -> digits line (-1) = [byte_of_Z (48 + line)])
  /\ (10 <= line -> digit_val (hd "0"%char (digits line (-1))) <> 0).
Proof.
  intros H0. unfold digits.
  destruct (itoa_loop_minimal 19 line (-1) []) as (d & Hd & R);
    [|lia|unfold int_min; simpl Z.of_nat; lia|].
  - split; [exact H0|]. pose proof (int_bounds line) as [_ B]. unfold int_max in B.
    assert (2 ^ 63 - 1 < 10 ^ Z.of_nat 20) by (vm_compute; reflexivity). lia.
  - rewrite Hd, app_nil_r. exact R.
Qed.

(** C6 at a file in the root directory.  With the short-file flag the loop
    stops before index 0, so the '/' that opens "/d.go" is never seen and
    the path is rendered whole, "/d.go:23: ", where the final element is
    "d.go".  The two paths of the claim render as it says. *)
Theorem C6_shortfile_leading_slash :
  let short := New discard "" "" (int_of Lshortfile) InfoLevel (int_of NotTerminal) in
  let long := New discard "" "" (int_of Llongfile) InfoLevel (int_of NotTerminal) in
  short_loop "/d.go" (Z.to_nat (len "/d.go" - 1)) = Some "/d.go"
  /\ formatHeader_file short "/d.go" (int_of 23) [] = Some (bytes_of "/d.go:23: ")
  /\ file_segment short "/d.go" (int_of 23) = bytes_of "/d.go:23: "
  /\ file_segment short "/a/b/c/d.go" (int_of 23) = bytes_of "d.go:23: "
  /\ file_segment long "/a/b/c/d.go" (int_of 23) = bytes_of "/a/b/c/d.go:23: ".
Proof.
  cbv zeta. repeat split; vm_compute; reflexivity.
Qed.

(** ** More of the header *)

Lemma has_lor (f a b : Z) : has f (Z.lor a b) = has f a || has f b.
Proof.
  unfold has. rewrite Z.land_lor_distr_r.
  destruct (Z.eqb_spec (Z.land f a) 0) as [Ea | Ea];
    destruct (Z.eqb_spec (Z.land f b) 0) as [Eb | Eb]; cbn [negb orb].
  - rewrite Ea, Eb. reflexivity.
  - apply negb_true_iff, Z.eqb_neq. intros H. apply Z.lor_eq_0_iff in H. tauto.
  - apply negb_true_iff, Z.eqb_neq. intros H. apply Z.lor_eq_0_iff in H. tauto.
  - apply negb_true_iff, Z.eqb_neq. intros H. apply Z.lor_eq_0_iff in H. tauto.
Qed.

(** [formatHeader] never panics, whatever the Logger, the time, the file
    and the line: the array of [itoa] is large enough for every machine
    integer in the widths used, and the loop over the file name stays inside
    it.  It leaves the bytes already in the buffer as they are, and what it
    appends does not depend on them. *)
Theorem formatHeader_appends (l : Logger) (b0 : list ascii) (t : Time) (file : string)
    (line : int) (lv : Level) :
  formatHeader l b0 t file line lv = Some (b0 ++ header l t file line lv)
  /\ formatHeader l [] t file line lv = Some (header l t file line lv).
Proof.
  split; [apply formatHeader_app|].
  rewrite formatHeader_app. reflexivity.
Qed.

Lemma header_modes_alike (l1 l2 : Logger) (t : Time) (file : string) (line : int)
    (lv : Level) :
  intval (isTerminal l1) <> IsTerminal -> intval (isTerminal l2) <> IsTerminal ->
  flag l1 = flag l2 -> prefix l1 = prefix l2 ->
  header l1 t file line lv = header l2 t file line lv.
Proof.
  intros H1 H2 Hf Hp. unfold header, level_segment, formatHeader_level,
    time_segment, formatHeader_time, file_segment, formatHeader_file.
  apply Z.eqb_neq in H1, H2. rewrite H1, H2, Hf, Hp. reflexivity.
Qed.

(** Without the flag [LLevel] the header carries no trace of the level of
    the message nor of the terminal mode: two Loggers with the same flags
    and prefix render the same header for any two levels.  Every terminal
    mode other than [IsTerminal] renders the same header.  With [LLevel]
    set and [fmt] writing [%s] and [%d] as it documents, the tag is the
    name of the level and a space in every mode other than [IsTerminal],
    and in [IsTerminal] the name between the escape sequence that carries
    the colour of the level and the one that resets it, and a space. *)
Theorem level_tag_only_with_LLevel (l1 l2 : Logger) (t : Time) (file : string)
    (line : int) (lv1 lv2 : Level) :
  (has (flag l1) LLevel = false -> flag l1 = flag l2 -> prefix l1 = prefix l2 ->
     header l1 t file line lv1 = header l2 t file line lv2)
  /\ (intval (isTerminal l1) <> IsTerminal -> intval (isTerminal l2) <> IsTerminal ->
       flag l1 = flag l2 -> prefix l1 = prefix l2 ->
       header l1 t file line lv1 = header l2 t file line lv1)
  /\ (fmt_plain_law ->
       has (flag l1) LLevel = true -> intval (isTerminal l1) <> IsTerminal ->
       level_segment l1 lv1 = bytes_of (Level_String lv1) ++ [" "%char])
  /\ (forall dec, fmt_colour_law dec ->
       has (flag l1) LLevel = true -> intval (isTerminal l1) = IsTerminal ->
       level_segment l1 lv1
       = bytes_of (String esc "[" ++ dec (Level_Color lv1) ++ "m"
                   ++ Level_String lv1 ++ String esc "[0m")%string
         ++ [" "%char]).
Proof.
  split; [|split; [|split]].
  - intros Hoff Hf Hp. unfold header.
    rewrite !level_segment_off by (rewrite <- ?Hf; exact Hoff).
    unfold time_segment, formatHeader_time, file_segment, formatHeader_file.
    rewrite Hf, Hp. reflexivity.
  - apply header_modes_alike.
  - intros Law Hon Hterm. unfold level_segment, formatHeader_level. rewrite Hon.
    apply Z.eqb_neq in Hterm. rewrite Hterm, Law. reflexivity.
  - intros dec Law Hon Hterm. unfold level_segment, formatHeader_level. rewrite Hon.
    apply Z.eqb_eq in Hterm. rewrite Hterm, Law. reflexivity.
Qed.

(** The flag [LUTC] decides which reading of the clock is rendered: with it
    only the UTC reading counts, without it only the local one.  Alone,
    with none of the date and time flags, it renders nothing. *)
Theorem LUTC_selects_reading (l : Logger) (t t' : Time) :
  (has (flag l) LUTC = true -> wall_utc t = wall_utc t' ->
     time_segment l t = time_segment l t')
  /\ (has (flag l) LUTC = false -> wall t = wall t' ->
       time_segment l t = time_segment l t')
  /\ (has (flag l) LUTC = true -> time_segment l t = time_segment l (Time_UTC t))
  /\ (has (flag l) (Z.lor (Z.lor Ldate Ltime) Lmicroseconds) = false ->
       time_segment l t = []).
Proof.
  unfold time_segment, formatHeader_time, Time_Date, Time_Clock, Time_Nanosecond.
  repeat split.
  - intros Hu Hw. rewrite Hu. unfold Time_UTC. rewrite Hw. reflexivity.
  - intros Hu Hw. rewrite Hu. rewrite Hw. reflexivity.
  - intros Hu. rewrite Hu. reflexivity.
  - intros Hoff. rewrite Hoff. reflexivity.
Qed.

(** [Lmicroseconds] brings the time of day with it ("assumes Ltime"): once
    it is set, the bit [Ltime] makes no difference to the header. *)
Theorem Lmicroseconds_implies_time (l1 l2 : Logger) (t : Time) :
  has (flag l1) Lmicroseconds = true -> has (flag l2) Lmicroseconds = true ->
  has (flag l1) Ldate = has (flag l2) Ldate ->
  has (flag l1) LUTC = has (flag l2) LUTC ->
  time_segment l1 t = time_segment l2 t
  /\ time_segment l1 t <> [].
Proof.
  intros H1 H2 Hd Hu.
  assert (forall l, has (flag l) Lmicroseconds = true ->
            has (flag l) (Z.lor (Z.lor Ldate Ltime) Lmicroseconds) = true
            /\ has (flag l) (Z.lor Ltime Lmicroseconds) = true) as On.
  { intros l H. rewrite !has_lor, H, !orb_true_r. auto. }
  destruct (On l1 H1) as [A1 B1]. destruct (On l2 H2) as [A2 B2].
  unfold time_segment, formatHeader_time.
  rewrite A1, A2, B1, B2, H1, H2, Hd, Hu.
  split; [reflexivity|].
  set (t0 := if has (flag l2) LUTC then Time_UTC t else t).
  unfold Time_Date, Time_Clock.
  destruct (has (flag l2) Ldate); run_itoa; intros E;
    apply (f_equal (@List.length ascii)) in E;
    rewrite ?length_app in E; simpl in E; lia.
Qed.

(** [Lshortfile] overrides [Llongfile]: once it is set, no other flag
    changes how file and line are rendered. *)
Theorem Lshortfile_overrides (l1 l2 : Logger) (file : string) (line : int) :
  has (flag l1) Lshortfile = true -> has (flag l2) Lshortfile = true ->
  file_segment l1 file line = file_segment l2 file line.
Proof.
  intros H1 H2. unfold file_segment, formatHeader_file.
  rewrite !has_lor, H1, H2. reflexivity.
Qed.

(** ** More of Output and of the methods *)

(** The trace and the Logger one call to [Output] leaves. *)
Lemma Output_trace_logger (calldepth : int) (s : string) (lv : Level) (st : State) :
  let st' := snd (Output calldepth s lv st) in
  let p := Output_line calldepth s lv st in
  trace st' = trace st ++ [EvNow]
                ++ (if has (flag (logger st)) (Z.lor Lshortfile Llongfile)
                    then [EvCaller calldepth] else [])
                ++ [EvWrite p]
  /\ logger st' = with_buf p (logger st)
  /\ (contentPrefix (logger st'), prefix (logger st'), suffix (logger st'),
      flag (logger st'), level (logger st'), out (logger st'),
      isTerminal (logger st'), callDepth (logger st'))
     = (contentPrefix (logger st), prefix (logger st), suffix (logger st),
        flag (logger st), level (logger st), out (logger st),
        isTerminal (logger st), callDepth (logger st)).
Proof.
  cbv zeta.
  destruct (Output_shape calldepth s lv st) as (evs & E & _ & V).
  cbv zeta in E. rewrite E. cbn [snd trace logger]. subst evs.
  repeat split.
Qed.

(** The calls [Output] makes, in order: [time.Now]; [runtime.Caller] with
    the depth given, once, if and only if a file flag is set; [Write].  It
    changes nothing in the Logger but the scratch buffer, which holds the
    line written. *)
Theorem Output_calls_and_keeps (calldepth : int) (s : string) (lv : Level) (st : State) :
  let st' := snd (Output calldepth s lv st) in
  let p := Output_line calldepth s lv st in
  trace st' = trace st ++ [EvNow]
                ++ (if has (flag (logger st)) (Z.lor Lshortfile Llongfile)
                    then [EvCaller calldepth] else [])
                ++ [EvWrite p]
  /\ logger st' = with_buf p (logger st)
  /\ (contentPrefix (logger st'), prefix (logger st'), suffix (logger st'),
      flag (logger st'), level (logger st'), out (logger st'),
      isTerminal (logger st'), callDepth (logger st'))
     = (contentPrefix (logger st), prefix (logger st), suffix (logger st),
        flag (logger st), level (logger st), out (logger st),
        isTerminal (logger st), callDepth (logger st)).
Proof. exact (Output_trace_logger calldepth s lv st). Qed.

(** Two calls to [Output] in a row write two lines, in order, and the
    second line is what the Logger as it was before the first call would
    write in the world the first call left: nothing of the first line
    remains in it. *)
Theorem Output_twice (d1 d2 : int) (s1 s2 : string) (lv1 lv2 : Level) (st : State) :
  let st1 := snd (Output d1 s1 lv1 st) in
  let st2 := snd (Output d2 s2 lv2 st1) in
  writes (trace st2)
  = writes (trace st)
    ++ [Output_line d1 s1 lv1 st;
        Output_line d2 s2 lv2 (mkState (logger st) (world st1) (trace st1))].
Proof.
  cbv zeta.
  destruct (Output_once d2 s2 lv2 (snd (Output d1 s1 lv1 st))) as (_ & _ & W2 & _).
  cbv zeta in W2. rewrite W2.
  destruct (Output_once d1 s1 lv1 st) as (_ & _ & W1 & _).
  cbv zeta in W1. rewrite W1, <- app_assoc. cbn [app]. do 3 f_equal.
  destruct (Output_shape d1 s1 lv1 st) as (evs & E & _).
  cbv zeta in E. rewrite E. reflexivity.
Qed.

(** [SetOutput] redirects: the next [Output] hands the same line to the new
    sink, takes its result from it, and does not call the old one. *)
Theorem SetOutput_redirects (w : Writer) (calldepth : int) (s : string) (lv : Level)
    (st : State) :
  let run := bind (SetOutput w) (fun _ => Output calldepth s lv) st in
  let p := Output_line calldepth s lv st in
  let r := w p (world_at_write calldepth st) in
  fst run = Returned (snd (fst r))
  /\ world (snd run) = snd r
  /\ writes (trace (snd run)) = writes (trace st) ++ [p]
  /\ out (logger (snd run)) = w.
Proof.
  cbv zeta. unfold SetOutput. rewrite bind_update_logger.
  set (st0 := mkState (with_out w (logger st)) (world st) (trace st)).
  destruct (Output_once calldepth s lv st0) as (R & Wd & Wr & _).
  cbv zeta in R, Wd, Wr.
  destruct (Output_trace_logger calldepth s lv st0) as (_ & L & _).
  cbv zeta in L.
  repeat split; [exact R | exact Wd | exact Wr | rewrite L; reflexivity].
Qed.

Lemma ungated_run (m : string) (st : State) :
  bind get_logger (fun l =>
    bind (formatted m) (fun s => bind (Output (callDepth l) s (level l)) (fun _ => ret tt)))
    st
  = (Returned tt,
     snd (Output (callDepth (logger st)) m (level (logger st)) (emit (EvFormat m) st))).
Proof.
  rewrite bind_get_logger. unfold bind at 1. unfold formatted.
  destruct (Output_shape (callDepth (logger st)) m (level (logger st))
              (emit (EvFormat m) st)) as (evs & E & _).
  cbv zeta in E. unfold bind. rewrite E. reflexivity.
Qed.

(** [Print], [Printf] and [Println] are not gated: at every configured
    level, the lowest included, they format, write one line, tagged with
    the Logger's own level, and return; the error of the write is dropped. *)
Theorem Print_family_always_writes (format : string) (v : list Value) (st : State) :
  let l := logger st in
  let wrote (m : M unit) (msg : string) :=
    fst (m st) = Returned tt
    /\ writes (trace (snd (m st)))
       = writes (trace st)
         ++ [Output_line (callDepth l) msg (level l) (emit (EvFormat msg) st)]
    /\ exists evs, trace (snd (m st)) = trace st ++ EvFormat msg :: evs in
  wrote (Print v) (fmt_Sprint v)
  /\ wrote (Printf format v) (fmt_Sprintf format v)
  /\ wrote (Println v) (fmt_Sprintln v).
Proof.
  cbv zeta.
  assert (forall (m : M unit) msg,
    m st = (Returned tt,
            snd (Output (callDepth (logger st)) msg (level (logger st))
                        (emit (EvFormat msg) st))) ->
    fst (m st) = Returned tt
    /\ writes (trace (snd (m st)))
       = writes (trace st)
         ++ [Output_line (callDepth (logger st)) msg (level (logger st))
                         (emit (EvFormat msg) st)]
    /\ exists evs, trace (snd (m st)) = trace st ++ EvFormat msg :: evs) as W.
  { intros m msg Hm. rewrite Hm. cbn [fst snd].
    destruct (Output_once (callDepth (logger st)) msg (level (logger st))
                (emit (EvFormat msg) st)) as (_ & _ & Wr & (evs & T & _) & _).
    cbv zeta in Wr, T. split; [reflexivity|]. split.
    - rewrite Wr. cbn [emit trace]. rewrite writes_app.
      cbn [writes flat_map app]. rewrite app_nil_r. reflexivity.
    - rewrite T. cbn [emit trace]. rewrite <- app_assoc. eexists. reflexivity. }
  split; [|split]; apply W; apply ungated_run.
Qed.

(** A gated method returns and keeps the configuration. *)
Lemma gated_run_returns (g : Gated) (sty : Style) (format : string)
    (v : list Value) (st : State) :
  let run := gated_method g sty format v st in
  fst run = Returned tt
  /\ (contentPrefix (logger (snd run)), prefix (logger (snd run)),
      suffix (logger (snd run)), flag (logger (snd run)), level (logger (snd run)),
      out (logger (snd run)), isTerminal (logger (snd run)),
      callDepth (logger (snd run)))
     = (contentPrefix (logger st), prefix (logger st), suffix (logger st),
        flag (logger st), level (logger st), out (logger st),
        isTerminal (logger st), callDepth (logger st)).
Proof.
  cbv zeta. rewrite gated_method_run.
  destruct (level (logger st) >=? gate g); [|split; reflexivity].
  split; [reflexivity|]. cbn [snd].
  destruct (Output_trace_logger (callDepth (logger st))
              (gated_message sty format v) (gate g)
              (emit (EvFormat (gated_message sty format v)) st)) as (_ & _ & K).
  cbv zeta in K. exact K.
Qed.

(** The gated methods always return: they never panic and never end the
    process, and when the sink fails the error goes no further.  They leave
    the configuration of the Logger as it was. *)
Theorem gated_methods_return (g : Gated) (sty : Style) (format : string)
    (v : list Value) (st : State) :
  let run := gated_method g sty format v st in
  fst run = Returned tt
  /\ (contentPrefix (logger (snd run)), prefix (logger (snd run)),
      suffix (logger (snd run)), flag (logger (snd run)), level (logger (snd run)),
      out (logger (snd run)), isTerminal (logger (snd run)),
      callDepth (logger (snd run)))
     = (contentPrefix (logger st), prefix (logger st), suffix (logger st),
        flag (logger st), level (logger st), out (logger st),
        isTerminal (logger st), callDepth (logger st)).
Proof. exact (gated_run_returns g sty format v st). Qed.

(** The depth at which a method looks for its caller is the field
    [callDepth]: 2 in a Logger made by [New], the value given after
    [SetCallDepth], one more after [IncrOneCallDepth], which at the largest
    machine integer wraps around to the smallest.  [runtime.Caller] is
    called with that depth when a file flag is set, and not at all
    otherwise. *)
Theorem callDepth_is_the_skip (o : Writer) (pre suf : string) (f : int) (lv : Level)
    (term d : int) (format : string) (v : list Value) (st : State) :
  let lookup (st0 : State) :=
    if has (flag (logger st0)) (Z.lor Lshortfile Llongfile)
    then [EvCaller (callDepth (logger st0))] else [] in
  let printed (st0 : State) := trace (snd (Printf format v st0)) in
  intval (callDepth (New o pre suf f lv term)) = 2
  /\ (exists p, printed st
        = trace st ++ [EvFormat (fmt_Sprintf format v); EvNow] ++ lookup st ++ [EvWrite p])
  /\ callDepth (logger (snd (SetCallDepth d st))) = d
  /\ intval (callDepth (logger (snd (IncrOneCallDepth st))))
     = (if intval (callDepth (logger st)) =? int_max then int_min
        else callDepth (logger st) + 1)
  /\ (has (flag (logger st)) (Z.lor Lshortfile Llongfile) = true ->
       exists p, printed (snd (SetCallDepth d st))
         = trace st ++ [EvFormat (fmt_Sprintf format v); EvNow; EvCaller d; EvWrite p]).
Proof.
  cbv zeta.
  assert (forall st0, exists p,
    trace (snd (Printf format v st0))
    = trace st0 ++ [EvFormat (fmt_Sprintf format v); EvNow]
        ++ (if has (flag (logger st0)) (Z.lor Lshortfile Llongfile)
            then [EvCaller (callDepth (logger st0))] else [])
        ++ [EvWrite p]) as P.
  { intros st0. unfold Printf, Sprintf. rewrite ungated_run. cbn [snd].
    destruct (Output_trace_logger (callDepth (logger st0)) (fmt_Sprintf format v)
                (level (logger st0)) (emit (EvFormat (fmt_Sprintf format v)) st0))
      as (T & _).
    cbv zeta in T. rewrite T. cbn [emit trace logger].
    eexists. rewrite <- !app_assoc. reflexivity. }
  split; [reflexivity|].
  split; [apply P|].
  split; [reflexivity|].
  split.
  - unfold IncrOneCallDepth, update_logger. cbn [snd logger callDepth with_callDepth].
    rewrite int_of_wrap.
    pose proof (int_bounds (callDepth (logger st))) as B.
    destruct (Z.eqb_spec (callDepth (logger st)) int_max) as [E | E].
    + rewrite E. reflexivity.
    + apply wrap_small. unfold int_min, int_max in *. lia.
  - intros Hf. destruct (P (snd (SetCallDepth d st))) as [p Hp].
    exists p. rewrite Hp.
    unfold SetCallDepth, update_logger. cbn [snd logger trace flag callDepth with_callDepth].
    rewrite Hf. reflexivity.
Qed.



(** The file name under [Lshortfile]: of a path [dir/base] with a directory
    part that is not empty and a last element without '/', the header
    carries [base], a colon, the line number in decimal and ": ". *)
Theorem shortfile_renders_base (l : Logger) (dir base : string) (line : int) :
  has (flag l) Lshortfile = true ->
  dir <> "" -> ~ In slash (bytes_of base) ->
  file_segment l (dir ++ String slash base) line
  = bytes_of base ++ [":"%char] ++ digits line (-1) ++ bytes_of ": ".
Proof.
  intros Hs Hd Hb. unfold file_segment, formatHeader_file.
  rewrite has_lor, Hs. cbn [orb].
  pose proof (short_loop_base dir base Hd Hb) as E. cbv zeta in E. rewrite E.
  run_itoa. rewrite <- !app_assoc. reflexivity.
Qed.

(** A path without any '/' after its first byte, the empty path included,
    is rendered whole under [Lshortfile], as it is under [Llongfile]. *)
Theorem shortfile_keeps_plain_name (l1 l2 : Logger) (file : string) (line : int) :
  has (flag l1) Lshortfile = true ->
  has (flag l2) Lshortfile = false -> has (flag l2) Llongfile = true ->
  ~ In slash (tl (bytes_of file)) ->
  file_segment l1 file line = file_segment l2 file line
  /\ file_segment l1 file line
     = bytes_of file ++ [":"%char] ++ digits line (-1) ++ bytes_of ": ".
Proof.
  intros H1 H2s H2l Hno.
  assert (short_loop file (Z.to_nat (len file - 1)) = Some file) as E.
  { apply short_loop_kept.
    - unfold len. lia.
    - intros j Hj Hc. apply Hno.
      rewrite index_bindex in Hc. unfold bindex in Hc.
      destruct ((0 <=? Z.of_nat j) && (Z.of_nat j <? blen (bytes_of file)));
        [|discriminate].
      rewrite Nat2Z.id in Hc.
      destruct j as [|j']; [lia|].
      destruct (bytes_of file) as [|c rest]; [discriminate|].
      cbn [tl nth_error] in *. eapply nth_error_In. exact Hc. }
  unfold file_segment, formatHeader_file.
  rewrite !has_lor, H1, H2s, H2l, E. cbn [orb].
  run_itoa. rewrite <- !app_assoc. split; reflexivity.
Qed.

(** [SetPrefix] and [SetSuffix] frame the next line: after [SetPrefix] the
    line written begins with the prefix set; after [SetSuffix] with a
    suffix that is not empty it ends with that suffix, followed by a newline
    unless the suffix itself ends in one. *)
Theorem SetPrefix_SetSuffix_frame_line (pre suf : string) (calldepth : int)
    (s : string) (lv : Level) (st : State) :
  let after (set : M unit) := writes (trace (snd (bind set (fun _ => Output calldepth s lv) st))) in
  (exists rest, after (SetPrefix pre) = writes (trace st) ++ [bytes_of pre ++ rest])
  /\ (suf <> "" ->
       exists front,
         after (SetSuffix suf)
         = writes (trace st)
           ++ [front ++ bytes_of suf ++ (if ends_nl (bytes_of suf) then [] else [nl])]).
Proof.
  cbv zeta. split.
  - unfold SetPrefix. rewrite bind_update_logger.
    set (st0 := mkState (with_prefix pre (logger st)) (world st) (trace st)).
    destruct (Output_once calldepth s lv st0) as (_ & _ & W & _).
    cbv zeta in W. rewrite W. cbn [st0 trace].
    unfold Output_line, assembled, call_header, header, terminated.
    cbn [st0 logger prefix with_prefix].
    match goal with |- context [if ?c then _ else _] => destruct c end;
      eexists; rewrite <- ?app_assoc; reflexivity.
  - intros Hs. unfold SetSuffix. rewrite bind_update_logger.
    set (st0 := mkState (with_suffix suf (logger st)) (world st) (trace st)).
    destruct (Output_once calldepth s lv st0) as (_ & _ & W & _).
    cbv zeta in W. rewrite W. cbn [st0 trace].
    unfold Output_line, assembled, padded_suffix, terminated.
    cbn [st0 logger suffix with_suffix contentPrefix].
    replace (0 <? len suf) with true by (destruct suf; [congruence | reflexivity]).
    assert (bytes_of suf <> []) as Hne
      by (destruct suf; [congruence | discriminate]).
    set (h := call_header calldepth lv st0).
    set (pad := if blen (stripped s) <? MaxContextLen
                then spaces (MaxContextLen - blen (stripped s)) else []).
    exists (h ++ bytes_of (contentPrefix (logger st)) ++ stripped s ++ pad).
    replace (h ++ bytes_of (contentPrefix (logger st)) ++ stripped s ++ pad ++ bytes_of suf)
      with ((h ++ bytes_of (contentPrefix (logger st)) ++ stripped s ++ pad) ++ bytes_of suf)
      by (rewrite <- !app_assoc; reflexivity).
    rewrite ends_nl_app by exact Hne.
    destruct (ends_nl (bytes_of suf)); rewrite <- ?app_assoc, ?app_nil_r; reflexivity.
Qed.

End LogFacts.


(* ===================================================================== *)
(** * Runs in the simulated world *)
(* ===================================================================== *)

Module SimRuns.
Import Sim.

Lemma sim_fresh : LLevel_fresh.
Proof. reflexivity. Qed.

(** The standard flags at the standard example. *)
Example std_message :
  sunk (world (snd (Output (int_of 2) "message" InfoLevel (start std w2009))))
  = [bytes_of "2009/01/23 01:23:23 message" ++ [nl]].
Proof. vm_compute. reflexivity. Qed.

(** Configured at Warn: Error and Warn write, Info, Debug and Verbose do
    not. *)
Example warn_gate :
  let st := start located_long w2009 in
  let sunk_by m := sunk (world (snd (m st))) in
  sunk_by (Errorf "e" []) = [bytes_of "/a/b/c/d.go:23: e" ++ [nl]]
  /\ sunk_by (Warnln ["w"]) = [bytes_of "/a/b/c/d.go:23: w" ++ [nl]]
  /\ sunk_by (Infof "i" []) = []
  /\ sunk_by (Debugf "d" []) = []
  /\ sunk_by (Verboseln ["v"]) = [].
Proof. vm_compute. repeat split. Qed.

(** The two renderings of C3 in the simulated world, where [LLevel] is bit 6. *)
Lemma C3_header_rendering_witness :
  LLevel_fresh
  /\ writes (trace (snd (Output (int_of 2) "message" InfoLevel (start std w2009))))
     = [bytes_of "2009/01/23 01:23:23 message" ++ [nl]]
  /\ time_segment micro t2009 = bytes_of "2009/01/23 01:23:23.123123 ".
Proof.
  split; [exact sim_fresh|].
  destruct (C3_header_rendering sim_fresh) as (_ & H & H' & _).
  split.
  - apply (H (start std w2009) (int_of 2) InfoLevel);
      [reflexivity | reflexivity | reflexivity | reflexivity | vm_compute; repeat split].
  - apply (H' micro [] t2009 "" (int_of 0) InfoLevel);
      [reflexivity | reflexivity | vm_compute; repeat split | reflexivity].
Defined.

(** C5 at the body "hello" and the suffix " |": 61 spaces. *)
Lemma C5_padding_witness :
  writes (trace (snd (Output (int_of 2) "hello" InfoLevel (start ruled w2009))))
  = [bytes_of "hello" ++ repeat " "%char 61 ++ bytes_of " |" ++ [nl]].
Proof.
  destruct (C5_padding (int_of 2) "hello" InfoLevel (start ruled w2009))
    as (_ & H & _).
  apply H; [discriminate | vm_compute; reflexivity].
Defined.

(** C7 with the long-file flag, no caller found and a sink that fails. *)
Lemma C7_unknown_caller_witness :
  has (flag located_long) (Z.lor Lshortfile Llongfile) = true
  /\ frame w_lost = None
  /\ writes (trace (snd (Output (int_of 2) "lost" WarnLevel (start located_long w_lost))))
     = [bytes_of "???:0: lost" ++ [nl]]
  /\ fst (Output (int_of 2) "lost" WarnLevel (start located_long w_lost))
     = Returned (Some "disk full").
Proof.
  split; [reflexivity|]. split; [reflexivity|].
  destruct (C7_unknown_caller (int_of 2) "lost" WarnLevel (start located_long w_lost)
              eq_refl eq_refl) as (_ & _ & W & R & _).
  split; [exact W | exact R].
Defined.

(** C4 at the body "a\n" with no header and no suffix. *)
Lemma C4_final_newline_witness :
  Output_line (int_of 2) (String "a" (String nl "")) InfoLevel (start plain w2009)
  = bytes_of "a" ++ [nl]
  /\ one_trailing_nl
       (Output_line (int_of 2) (String "a" (String nl "")) InfoLevel (start plain w2009))
     = true.
Proof.
  destruct (C4_final_newline (int_of 2) (String "a" (String nl "")) InfoLevel
              (start plain w2009)) as (_ & _ & _ & _ & _ & _ & _ & H).
  apply H; [reflexivity | discriminate | reflexivity].
Defined.

(** C4 as stated fails.  A body that ends in three newlines loses one and
    is written with two.  A body without a newline, before a suffix that
    ends in one, gets no newline appended. *)
Lemma C4_counterexample :
  let three := String "a" (String nl (String nl (String nl ""))) in
  writes (trace (snd (Output (int_of 2) three InfoLevel (start plain w2009))))
  = [bytes_of "a" ++ [nl; nl]]
  /\ one_trailing_nl (bytes_of "a" ++ [nl; nl]) = false
  /\ ends_nl (bytes_of "a") = false
  /\ writes (trace (snd (Output (int_of 2) "a" InfoLevel (start ruled_nl w2009))))
     = [bytes_of "a" ++ repeat " "%char 65 ++ bytes_of "s" ++ [nl]].
Proof. vm_compute. repeat split. Qed.

(** [Lmicroseconds] alone and with [Ltime]: "01:23:23.123123 " both. *)
Lemma Lmicroseconds_implies_time_witness :
  time_segment micro_only t2009 = time_segment micro_time t2009
  /\ time_segment micro_only t2009 <> []
  /\ time_segment micro_only t2009 = bytes_of "01:23:23.123123 ".
Proof.
  destruct (Lmicroseconds_implies_time micro_only micro_time t2009
              eq_refl eq_refl eq_refl eq_refl) as [E N].
  split; [exact E|]. split; [exact N | reflexivity].
Defined.

(** [Lshortfile] alone and with [Llongfile]: "d.go:23: " both. *)
Lemma Lshortfile_overrides_witness :
  file_segment located_short "/a/b/c/d.go" (int_of 23)
  = file_segment located_both "/a/b/c/d.go" (int_of 23)
  /\ file_segment located_both "/a/b/c/d.go" (int_of 23) = bytes_of "d.go:23: ".
Proof.
  split; [|reflexivity].
  exact (Lshortfile_overrides located_short located_both "/a/b/c/d.go" (int_of 23)
           eq_refl eq_refl).
Defined.

Lemma no_slash_in_d_go : ~ In slash (bytes_of "d.go").
Proof.
  intros H. cbn in H.
  repeat (destruct H as [H | H]; [discriminate|]). exact H.
Qed.

(** The path "/a/b/c" + "/" + "d.go" at line 23. *)
Lemma shortfile_renders_base_witness :
  file_segment located_short ("/a/b/c" ++ String slash "d.go") (int_of 23)
  = bytes_of "d.go" ++ [":"%char] ++ digits (int_of 23) (-1) ++ bytes_of ": ".
Proof.
  apply (shortfile_renders_base located_short "/a/b/c" "d.go" (int_of 23) eq_refl);
    [discriminate | exact no_slash_in_d_go].
Defined.

(** The path "d.go", which has no directory part. *)
Lemma shortfile_keeps_plain_name_witness :
  file_segment located_short "d.go" (int_of 23)
  = file_segment located_long "d.go" (int_of 23)
  /\ file_segment located_short "d.go" (int_of 23)
     = bytes_of "d.go" ++ [":"%char] ++ digits (int_of 23) (-1) ++ bytes_of ": ".
Proof.
  apply (shortfile_keeps_plain_name located_short located_long "d.go" (int_of 23)
           eq_refl eq_refl eq_refl).
  intros H. cbn in H.
  repeat (destruct H as [H | H]; [discriminate|]). exact H.
Defined.

End SimRuns.

(** * Runs with the verbs of package fmt *)

Module SimFmtRuns.
Import SimFmt.

Lemma append_empty (s : string) : (s ++ "")%string = s.
Proof. induction s as [|c s IH]; [reflexivity | cbn; rewrite IH; reflexivity]. Qed.

Lemma sprintf_plain : fmt_plain_law.
Proof. intros s. cbn. apply append_empty. Qed.

Lemma sprintf_colour : fmt_colour_law decimal.
Proof. intros c s. reflexivity. Qed.

(** The tag of level Warn, whose colour is 37 here, off and on a terminal. *)
Lemma level_tag_only_with_LLevel_witness :
  fmt_plain_law /\ fmt_colour_law decimal
  /\ level_segment tagged_file WarnLevel = bytes_of "warn "
  /\ level_segment tagged_terminal WarnLevel
     = bytes_of (String esc "[37mwarn" ++ String esc "[0m ").
Proof.
  split; [exact sprintf_plain|]. split; [exact sprintf_colour|].
  destruct (level_tag_only_with_LLevel tagged_file tagged_file Sim.t2009 ""
              (int_of 0) WarnLevel WarnLevel) as (_ & _ & P & _).
  destruct (level_tag_only_with_LLevel tagged_terminal tagged_terminal Sim.t2009 ""
              (int_of 0) WarnLevel WarnLevel) as (_ & _ & _ & C).
  split.
  - exact (P sprintf_plain eq_refl ltac:(vm_compute; discriminate)).
  - exact (C decimal sprintf_colour eq_refl eq_refl).
Defined.

End SimFmtRuns.

(* ===================================================================== *)
(** * Package uhash: the digest *)
(* ===================================================================== *)

Module UhashFacts.
Import Uhash UhashNotions.

Section MD5.

Context {md5 : Md5}.

Lemma hex_digit_lower (n : N) : is_lower_hex (hex_digit n).
Proof.
  unfold is_lower_hex, hex_digit.
  destruct (String.get (N.to_nat n) hextable) as [c|] eqn:E.
  - rewrite get_nth_error in E. eapply nth_error_In. exact E.
  - left. reflexivity.
Qed.

Lemma hex_EncodeToString_bytes (src : bytes) :
  List.length (bytes_of (hex_EncodeToString src)) = (2 * List.length src)%nat
  /\ Forall is_lower_hex (bytes_of (hex_EncodeToString src)).
Proof.
  unfold hex_EncodeToString, bytes_of.
  rewrite list_ascii_of_string_of_list_ascii.
  induction src as [|b src [IHl IHf]]; [split; [reflexivity | constructor]|].
  cbn [flat_map app List.length]. split.
  - rewrite IHl. lia.
  - apply Forall_cons; [apply hex_digit_lower|].
    apply Forall_cons; [apply hex_digit_lower | exact IHf].
Qed.

Lemma hex_bytes_digits (b : ascii) :
  ascii_of_N (16 * hex_val (hex_digit (N.shiftr (N_of_ascii b) 4))
              + hex_val (hex_digit (N.land (N_of_ascii b) 15))) = b.
Proof.
  destruct b as [[] [] [] [] [] [] [] []]; vm_compute; reflexivity.
Qed.

Lemma hex_bytes_encoded (src : list ascii) :
  hex_bytes (bytes_of (hex_EncodeToString src)) = src.
Proof.
  unfold hex_EncodeToString, bytes_of.
  rewrite list_ascii_of_string_of_list_ascii.
  induction src as [|b src IH]; [reflexivity|].
  cbn [flat_map app hex_bytes]. rewrite hex_bytes_digits, IH. reflexivity.
Qed.

(** C10. On every input MD5 returns a nil error, the error branch being
    closed by what the digest's Write promises, and the digest of that
    input: the checksum the hash gives after the input was written to it,
    as 32 lowercase hexadecimal digits, two to the byte, from which the
    checksum reads back.  MD5String gives what MD5 gives on the bytes of
    the string. *)
Theorem C10_md5_digest :
  Write_never_fails -> Sum_has_md5_Size ->
  forall (data : list ascii) (str : string),
    let sum := Digest_Sum (fst (Digest_Write md5_New data)) [] in
    (exists digest,
        MD5 data = (digest, None)
        /\ String.length digest = 32%nat
        /\ Forall is_lower_hex (bytes_of digest)
        /\ digest = hex_EncodeToString sum
        /\ hex_bytes (bytes_of digest) = sum)
    /\ MD5String str = MD5 (bytes_of str)
    /\ MD5String str
       = (hex_EncodeToString
            (Digest_Sum (fst (Digest_Write md5_New (bytes_of str))) []), None).
Proof.
  intros HW HS data str. cbv zeta.
  assert (forall d, MD5 d
            = (hex_EncodeToString (Digest_Sum (fst (Digest_Write md5_New d)) []), None))
    as Run.
  { intros d. unfold MD5. pose proof (HW md5_New d) as E.
    destruct (Digest_Write md5_New d) as [h [n err]]. cbn [fst snd] in *.
    subst err. reflexivity. }
  split; [|split; [reflexivity | apply Run]].
  eexists. split; [apply Run|].
  destruct (hex_EncodeToString_bytes (Digest_Sum (fst (Digest_Write md5_New data)) []))
    as [Hl Hf].
  split; [|split; [exact Hf | split; [reflexivity | apply hex_bytes_encoded]]].
  rewrite HS in Hl.
  pose proof (bytes_of_length
                (hex_EncodeToString (Digest_Sum (fst (Digest_Write md5_New data)) [])))
    as B.
  unfold blen, len in B. lia.
Qed.

(** ** More of MD5 *)

(** What MD5 returns, by the result of [Write]. *)
Lemma MD5_result (data : list ascii) :
  let w := Digest_Write md5_New data in
  let sum := Digest_Sum (fst w) [] in
  snd (MD5 data) = snd (snd w)
  /\ (snd (snd w) <> None -> fst (MD5 data) = "")
  /\ (snd (snd w) = None ->
       String.length (fst (MD5 data)) = (2 * List.length sum)%nat
       /\ Forall is_lower_hex (bytes_of (fst (MD5 data)))
       /\ hex_bytes (bytes_of (fst (MD5 data))) = sum).
Proof.
  cbv zeta. unfold MD5.
  destruct (Digest_Write md5_New data) as [h [n [e|]]]; cbn [fst snd].
  - split; [reflexivity|]. split; [reflexivity|]. intros H. discriminate.
  - split; [reflexivity|]. split; [intros H; congruence|]. intros _.
    destruct (hex_EncodeToString_bytes (Digest_Sum h [])) as [Hl Hf].
    split; [|split; [exact Hf | apply hex_bytes_encoded]].
    pose proof (bytes_of_length (hex_EncodeToString (Digest_Sum h []))) as B.
    unfold blen, len in B. lia.
Qed.

(** The error MD5 returns is the error of the digest's [Write], whatever
    the digest.  When there is one the string returned is empty; when there
    is none the string is the checksum in lowercase hexadecimal, two
    digits to the byte, and the checksum can be read back from it. *)
Theorem MD5_error_or_hex (data : list ascii) :
  let w := Digest_Write md5_New data in
  let sum := Digest_Sum (fst w) [] in
  snd (MD5 data) = snd (snd w)
  /\ (snd (snd w) <> None -> fst (MD5 data) = "")
  /\ (snd (snd w) = None ->
       String.length (fst (MD5 data)) = (2 * List.length sum)%nat
       /\ Forall is_lower_hex (bytes_of (fst (MD5 data)))
       /\ hex_bytes (bytes_of (fst (MD5 data))) = sum).
Proof. exact (MD5_result data). Qed.

(** With a digest whose [Write] never fails, two inputs get the same result
    from MD5 only if their checksums are the same. *)
Theorem MD5_equal_only_if_checksums_equal (d1 d2 : list ascii) :
  Write_never_fails -> MD5 d1 = MD5 d2 ->
  Digest_Sum (fst (Digest_Write md5_New d1)) []
  = Digest_Sum (fst (Digest_Write md5_New d2)) [].
Proof.
  intros HW E.
  destruct (MD5_result d1) as (_ & _ & H1).
  destruct (MD5_result d2) as (_ & _ & H2).
  cbv zeta in H1, H2.
  destruct (H1 (HW _ _)) as (_ & _ & R1). destruct (H2 (HW _ _)) as (_ & _ & R2).
  rewrite <- R1, <- R2, E. reflexivity.
Qed.

End MD5.

(** ** Runs with the digest of RFC 1321 *)

Module Rfc1321Runs.
Import Rfc1321.

Example md5_empty : MD5 [] = ("d41d8cd98f00b204e9800998ecf8427e", None).
Proof. vm_compute. reflexivity. Qed.

Example md5_abc : MD5String "abc" = ("900150983cd24fb0d6963f7d28e17f72", None).
Proof. vm_compute. reflexivity. Qed.

Example md5_fox :
  MD5String "The quick brown fox jumps over the lazy dog"
  = ("9e107d9d372bb6826bd81d3542a419d6", None).
Proof. vm_compute. reflexivity. Qed.

Lemma md5_never_fails : Write_never_fails.
Proof. intros h p. reflexivity. Qed.

Lemma md5_size : Sum_has_md5_Size.
Proof.
  intros h. cbn [Digest_Sum md5 app]. unfold checksum.
  destruct (blocks _ _ _) as [[[a b] c] d]. reflexivity.
Qed.

(** With the digest of RFC 1321, MD5 is the checksum of the input in
    hexadecimal. *)
Lemma md5_of_input (data : list ascii) :
  MD5 data = (hex_EncodeToString (checksum data), None).
Proof.
  unfold MD5. cbn [Digest_Write Digest_Sum md5_New md5 fst snd app]. reflexivity.
Qed.

(** C10 at "abc" with the digest of RFC 1321. *)
Lemma C10_md5_digest_witness :
  Write_never_fails /\ Sum_has_md5_Size
  /\ (exists digest,
        MD5 (bytes_of "abc") = (digest, None)
        /\ String.length digest = 32%nat
        /\ Forall is_lower_hex (bytes_of digest)
        /\ digest = "900150983cd24fb0d6963f7d28e17f72"
        /\ hex_bytes (bytes_of digest)
           = Digest_Sum (fst (Digest_Write md5_New (bytes_of "abc"))) [])
  /\ MD5String "abc" = MD5 (bytes_of "abc")
  /\ MD5String "abc" = ("900150983cd24fb0d6963f7d28e17f72", None).
Proof.
  split; [exact md5_never_fails|]. split; [exact md5_size|].
  destruct (C10_md5_digest md5_never_fails md5_size (bytes_of "abc") "abc")
    as ((digest & R & L & F & D & H) & S1 & S2).
  split; [|split; [exact S1 | rewrite S2; vm_compute; reflexivity]].
  exists digest. split; [exact R|]. split; [exact L|]. split; [exact F|].
  split; [rewrite D; vm_compute; reflexivity | exact H].
Defined.

(** Two inputs that differ, with the same result from MD5 and the same
    checksum. *)
Lemma MD5_equal_only_if_checksums_equal_witness :
  Write_never_fails
  /\ nth 19 collision_a zero <> nth 19 collision_b zero
  /\ MD5 collision_a = MD5 collision_b
  /\ fst (MD5 collision_a) = "79054025255fb1a26e4bc422aef54eb4"
  /\ Digest_Sum (fst (Digest_Write md5_New collision_a)) []
     = Digest_Sum (fst (Digest_Write md5_New collision_b)) [].
Proof.
  assert (MD5 collision_a = MD5 collision_b) as E by (vm_compute; reflexivity).
  split; [exact md5_never_fails|].
  split; [vm_compute; discriminate|].
  split; [exact E|].
  split; [vm_compute; reflexivity|].
  exact (MD5_equal_only_if_checksums_equal collision_a collision_b md5_never_fails E).
Defined.

End Rfc1321Runs.

End UhashFacts.
